(** * Permission resolution of the optometry back end

    A shallow embedding of the access-control core of the repository:

    - [src/Models/Permission.js]: the per-(shop, role) permission document,
      the static default table and the lists of known pages and actions;
    - [src/Models/User.js]: [hasPermission], [canAccessPage], [getPermissions];
    - [src/Models/Shop.js]: [initializePermissions];
    - [middleware/permissions.js]: [checkPermission], [checkPageAccess];
    - [src/controllers/permissionController.js]: [updateRolePermissions] and
      [resetRolePermissions], and after them the other handlers of the
      file, [checkMultiplePermissions] of the middleware and
      [validateShopOwnership] of [middleware/validation.js].

    The document store is modelled by two collections, lists of documents
    in natural order.  A JavaScript [Map] is a [gmap] over its string keys
    and an array is a list.

    An entry of a [permissions] map is a sub-document of the seven flags
    that its schema declares ([Caps.t]), each of them unset, [null] or a
    boolean.  The permission schema gives every flag the default [false],
    which the store applies to what is written ([Permission.cast]); the
    user schema gives none.  The store refuses a map one of whose keys is
    not a valid map key ([Permission.validKey]).  Read with [entry[name]],
    a sub-document answers its flags, and [true] for the marks
    [$isSubdocument] and [$isSingleNested] of its prototype ([Caps.read]).
    Spread with [{ ...entry }], or listed with [Object.keys], it shows its
    internals ([$__], [_doc], [$isNew], ...) and none of its flags
    ([Entry.spread]).

    The objects that the code fills key by key ([allPermissions] and the
    merged [permissions] of [getPermissions]) are modelled by their own
    keys: the keys are module names taken from the stored maps, and a
    module is not named after a member of [Object.prototype] (none of the
    available pages is).  The one object literal that the code indexes with
    a request parameter as it arrives is [defaults] in
    [getDefaultPermissions]; that read is modelled with the prototype chain
    ([Js.get_prop]). *)

From stdpp Require Import gmap strings list fin_maps.

Open Scope string_scope.

(** Object ids are the 24-digit hexadecimal strings of the store. *)
Definition ObjectId := string.

Definition hexDigit (c : Ascii.ascii) : bool :=
  let n := Ascii.nat_of_ascii c in
  ((48 <=? n) && (n <=? 57) || (97 <=? n) && (n <=? 102)
   || (65 <=? n) && (n <=? 70))%nat.

(** A string that the store casts to an id: a request parameter has to be
    one for a query on it to run. *)
Definition isObjectId (s : string) : bool :=
  (String.length s =? 24)%nat && forallb hexDigit (String.list_ascii_of_string s).

(** ** JavaScript values met by the code *)
Module Js.

(** The value of a [Boolean] schema path: unset, [null], or a boolean. *)
Inductive flag := undefined | null | boolean (b : bool).

(** [v === true] *)
Definition is_true (v : flag) : bool :=
  match v with boolean true => true | _ => false end.

(** [v !== undefined] *)
Definition defined (v : flag) : bool :=
  match v with undefined => false | _ => true end.

(** The names every object literal inherits from [Object.prototype]. *)
Definition Object_prototype : list string :=
  [ "constructor"; "__defineGetter__"; "__defineSetter__"; "hasOwnProperty";
    "__lookupGetter__"; "__lookupSetter__"; "isPrototypeOf";
    "propertyIsEnumerable"; "toString"; "valueOf"; "__proto__";
    "toLocaleString" ].

Definition inherits (k : string) : bool := bool_decide (k ∈ Object_prototype).

(** The outcome of the property read [o[k]] on an object literal [o]: an
    own property, a member found on the prototype (a function, or the
    prototype itself for [__proto__]; truthy in each case), or
    [undefined]. *)
Inductive member (A : Type) :=
| own (a : A)
| inherited (name : string)
| absent.
Arguments own {A} a.
Arguments inherited {A} name.
Arguments absent {A}.

(** Own properties of an object literal, in the order they are written. *)
Fixpoint own_prop {A} (o : list (string * A)) (k : string) : option A :=
  match o with
  | [] => None
  | (k', a) :: o' => if String.eqb k' k then Some a else own_prop o' k
  end.

Definition get_prop {A} (o : list (string * A)) (k : string) : member A :=
  match own_prop o k with
  | Some a => own a
  | None => if inherits k then inherited k else absent
  end.

End Js.

(** ** Capability records: [{view, create, edit, delete, export, import, manage}] *)
Module Caps.

Record t := mk {
  view : Js.flag;
  create : Js.flag;
  edit : Js.flag;
  delete : Js.flag;
  export : Js.flag;
  import : Js.flag;
  manage : Js.flag
}.

(** [{}] *)
Definition empty : t :=
  mk Js.undefined Js.undefined Js.undefined Js.undefined
     Js.undefined Js.undefined Js.undefined.

(** The flag of [c] under a name; a name that is not one of the seven paths
    holds no flag. *)
Definition get (c : t) (action : string) : Js.flag :=
  if String.eqb action "view" then view c
  else if String.eqb action "create" then create c
  else if String.eqb action "edit" then edit c
  else if String.eqb action "delete" then delete c
  else if String.eqb action "export" then export c
  else if String.eqb action "import" then import c
  else if String.eqb action "manage" then manage c
  else Js.undefined.

(** [c[action] = v] *)
Definition set (action : string) (v : Js.flag) (c : t) : t :=
  if String.eqb action "view" then
    mk v (create c) (edit c) (delete c) (export c) (import c) (manage c)
  else if String.eqb action "create" then
    mk (view c) v (edit c) (delete c) (export c) (import c) (manage c)
  else if String.eqb action "edit" then
    mk (view c) (create c) v (delete c) (export c) (import c) (manage c)
  else if String.eqb action "delete" then
    mk (view c) (create c) (edit c) v (export c) (import c) (manage c)
  else if String.eqb action "export" then
    mk (view c) (create c) (edit c) (delete c) v (import c) (manage c)
  else if String.eqb action "import" then
    mk (view c) (create c) (edit c) (delete c) (export c) v (manage c)
  else if String.eqb action "manage" then
    mk (view c) (create c) (edit c) (delete c) (export c) (import c) v
  else c.

Definition paths : list string :=
  ["view"; "create"; "edit"; "delete"; "export"; "import"; "manage"].

(** [entry[name]] on a sub-document of a [permissions] map: one of its
    flags, or one of the two marks that the prototype of a sub-document
    sets to [true]. *)
Definition read (c : t) (name : string) : Js.flag :=
  if String.eqb name "$isSubdocument" then Js.boolean true
  else if String.eqb name "$isSingleNested" then Js.boolean true
  else get c name.

(** An object literal [{ a1: b1, a2: b2, ... }]. *)
Definition obj (l : list (string * bool)) : t :=
  foldl (fun c kv => set (fst kv) (Js.boolean (snd kv)) c) empty l.

End Caps.

(** ** The entries of the object that [getPermissions] builds *)
Module Entry.

(** A plain object: the flags it owns under the seven names, and the [_doc]
    it owns once the internals of a sub-document have been copied onto
    it. *)
Record t := mk {
  flags : Caps.t;
  doc : option Caps.t
}.

(** [{}] *)
Definition empty : t := mk Caps.empty None.

(** [e[action] = v] for one of the seven names. *)
Definition set (action : string) (v : Js.flag) (e : t) : t :=
  mk (Caps.set action v (flags e)) (doc e).

(** [{ ...value }] for a sub-document [value]: its own enumerable
    properties are its internals, [_doc] among them; its flags are
    accessors of its prototype and are not copied. *)
Definition spread (value : Caps.t) : t := mk Caps.empty (Some value).

(** The loop [Object.keys(value).forEach(k => { if (value[k] !== undefined)
    e[k] = value[k] })] for a sub-document [value]: the keys are its
    internals, all of them defined, so [e] takes the [_doc] of [value] and
    keeps the flags it owns. *)
Definition take (value : Caps.t) (e : t) : t := mk (flags e) (Some value).

(** [e[action] === true].  The internals are objects, or [false] for the
    [$isNew] of a stored document. *)
Definition is_true (e : t) (action : string) : bool :=
  Js.is_true (Caps.get (flags e) action).

End Entry.


(** ** [Models/Permission.js] *)
Module Permission.

(** A document of the [Permission] collection.  [shop], [role] and
    [createdBy] are required paths; [isActive] defaults to [true]; the
    flags of the entries of [permissions] default to [false]. *)
Record doc := mk {
  shop : ObjectId;
  role : string;
  permissions : gmap string Caps.t;
  pageAccess : list string;
  isActive : bool;
  createdBy : ObjectId
}.

Definition admin : list (string * Caps.t) :=
  [ ("dashboard", Caps.obj [("view", true); ("manage", true)]);
    ("customers", Caps.obj [("view", true); ("create", true); ("edit", true);
                            ("delete", true); ("export", true); ("import", true)]);
    ("records", Caps.obj [("view", true); ("create", true); ("edit", true);
                          ("delete", true); ("export", true); ("import", true)]);
    ("appointments", Caps.obj [("view", true); ("create", true); ("edit", true);
                               ("delete", true); ("export", true)]);
    ("billing", Caps.obj [("view", true); ("create", true); ("edit", true);
                          ("delete", true); ("export", true)]);
    ("inventory", Caps.obj [("view", true); ("create", true); ("edit", true);
                            ("delete", true); ("export", true); ("import", true)]);
    ("reports", Caps.obj [("view", true); ("create", true); ("export", true);
                          ("manage", true)]);
    ("settings", Caps.obj [("view", true); ("edit", true); ("manage", true)]);
    ("users", Caps.obj [("view", true); ("create", true); ("edit", true);
                        ("delete", true); ("manage", true)]);
    ("permissions", Caps.obj [("view", true); ("create", true); ("edit", true);
                              ("delete", true); ("manage", true)]) ].

Definition shop_owner : list (string * Caps.t) :=
  [ ("dashboard", Caps.obj [("view", true); ("manage", true)]);
    ("customers", Caps.obj [("view", true); ("create", true); ("edit", true);
                            ("delete", true); ("export", true); ("import", true)]);
    ("records", Caps.obj [("view", true); ("create", true); ("edit", true);
                          ("delete", true); ("export", true); ("import", true)]);
    ("appointments", Caps.obj [("view", true); ("create", true); ("edit", true);
                               ("delete", true); ("export", true)]);
    ("billing", Caps.obj [("view", true); ("create", true); ("edit", true);
                          ("delete", true); ("export", true)]);
    ("inventory", Caps.obj [("view", true); ("create", true); ("edit", true);
                            ("delete", true); ("export", true); ("import", true)]);
    ("reports", Caps.obj [("view", true); ("create", true); ("export", true);
                          ("manage", true)]);
    ("settings", Caps.obj [("view", true); ("edit", true); ("manage", true)]);
    ("users", Caps.obj [("view", true); ("create", true); ("edit", true);
                        ("delete", true); ("manage", true)]);
    ("permissions", Caps.obj [("view", true); ("create", true); ("edit", true);
                              ("delete", true); ("manage", true)]) ].

Definition optometrist : list (string * Caps.t) :=
  [ ("dashboard", Caps.obj [("view", true)]);
    ("customers", Caps.obj [("view", true); ("create", true); ("edit", true);
                            ("export", true)]);
    ("records", Caps.obj [("view", true); ("create", true); ("edit", true);
                          ("export", true)]);
    ("appointments", Caps.obj [("view", true); ("create", true); ("edit", true)]);
    ("reports", Caps.obj [("view", true); ("export", true)]) ].

Definition assistant : list (string * Caps.t) :=
  [ ("dashboard", Caps.obj [("view", true)]);
    ("customers", Caps.obj [("view", true); ("create", true); ("edit", true)]);
    ("records", Caps.obj [("view", true); ("create", true)]);
    ("appointments", Caps.obj [("view", true); ("create", true); ("edit", true)]) ].

Definition receptionist : list (string * Caps.t) :=
  [ ("dashboard", Caps.obj [("view", true)]);
    ("customers", Caps.obj [("view", true); ("create", true); ("edit", true)]);
    ("appointments", Caps.obj [("view", true); ("create", true); ("edit", true);
                               ("delete", true)]) ].

(** The object literal [defaults] of [getDefaultPermissions]. *)
Definition defaults : list (string * list (string * Caps.t)) :=
  [ ("admin", admin); ("shop_owner", shop_owner); ("optometrist", optometrist);
    ("assistant", assistant); ("receptionist", receptionist) ].

(** What [getDefaultPermissions] hands back: one of the tables above, or a
    member that [defaults] inherits from its prototype. *)
Inductive value :=
| table (t : list (string * Caps.t))
| builtin (name : string).

(** [defaults[role] || defaults.assistant] *)
Definition getDefaultPermissions (role : string) : value :=
  match Js.get_prop defaults role with
  | Js.own t => table t
  | Js.inherited name => builtin name
  | Js.absent => table assistant
  end.

(** [Object.keys(v)]; the inherited members have no enumerable own key. *)
Definition keys (v : value) : list string :=
  match v with
  | table t => t.*1
  | builtin _ => []
  end.

(** [v[page]] for [page] among [keys v]. *)
Definition entry (v : value) (page : string) : option Caps.t :=
  match v with
  | table t => Js.own_prop t page
  | builtin _ => None
  end.

Definition getAvailablePages : list string :=
  [ "dashboard"; "customers"; "records"; "appointments"; "billing";
    "inventory"; "reports"; "settings"; "users"; "permissions"; "analytics";
    "notifications"; "help" ].

Definition getAvailableActions : list string :=
  [ "view"; "create"; "edit"; "delete"; "export"; "import"; "manage" ].

(** [{ type: Boolean, default: false }]: the default stands in for a flag
    that is not set. *)
Definition default_false (v : Js.flag) : Js.flag :=
  match v with
  | Js.undefined => Js.boolean false
  | _ => v
  end.

(** An entry as the store keeps it. *)
Definition cast (c : Caps.t) : Caps.t :=
  Caps.mk (default_false (Caps.view c)) (default_false (Caps.create c))
    (default_false (Caps.edit c)) (default_false (Caps.delete c))
    (default_false (Caps.export c)) (default_false (Caps.import c))
    (default_false (Caps.manage c)).

(** The keys that a map of the store accepts: a key does not start with
    [$], contains neither [.] nor the character of code 0, which no field
    name can hold, and is not a reserved name. *)
Definition validKey (k : string) : bool :=
  negb (String.prefix "$" k)
  && negb (bool_decide (is_Some (String.index 0 "." k)))
  && negb (bool_decide
             (is_Some
                (String.index 0 (String (Ascii.ascii_of_nat 0) EmptyString) k)))
  && negb (bool_decide (k ∈ ["__proto__"; "constructor"; "prototype"])).

(** The filter [{ shop, role }]. *)
Definition matches (shopId : ObjectId) (r : string) (d : doc) : bool :=
  String.eqb (shop d) shopId && String.eqb (role d) r.

(** [Permission.findOne({ shop, role, isActive: true })].  [shop] is a
    required path, so a query for an account without a shop matches no
    document. *)
Definition findOne (sh : option ObjectId) (r : string) (coll : list doc)
  : option doc :=
  match sh with
  | None => None
  | Some shopId => List.find (fun d => matches shopId r d && isActive d) coll
  end.

(** [Permission.findOneAndUpdate({ shop, role }, update, { upsert: true })]:
    the first matching document is updated in place; when there is none the
    document [fresh] is inserted. *)
Fixpoint findOneAndUpdate (shopId : ObjectId) (r : string)
    (update : doc -> doc) (fresh : doc) (coll : list doc) : list doc :=
  match coll with
  | [] => [fresh]
  | d :: coll' =>
      if matches shopId r d then update d :: coll'
      else d :: findOneAndUpdate shopId r update fresh coll'
  end.

(** The map built by
    [Object.keys(v).forEach(page => permissionsMap.set(page, v[page]))]. *)
Definition permissionsMap (v : value) : gmap string Caps.t :=
  foldl (fun m page =>
           match entry v page with
           | Some c => <[page := c]> m
           | None => m
           end) ∅ (keys v).

(** The unique index [{ shop: 1, role: 1 }]. *)
Definition key (d : doc) : ObjectId * string := (shop d, role d).

Definition unique_index (coll : list doc) : Prop := NoDup (key <$> coll).

End Permission.


(** ** [Models/User.js] *)
Module User.

(** A document of the [User] collection.  [shop] is absent for the platform
    administrator; [permissions] and [accessiblePages] are absent once they
    have been unset. *)
Record doc := mk {
  _id : ObjectId;
  name : string;
  email : string;
  role : string;
  shop : option ObjectId;
  isActive : bool;
  permissions : option (gmap string Caps.t);
  accessiblePages : option (list string)
}.

(** The object returned by [getPermissions]. *)
Record resolved := mkResolved {
  r_permissions : gmap string Entry.t;
  r_accessiblePages : list string;
  r_role : string
}.

(** [userSchema.methods.hasPermission] *)
Definition hasPermission (this : doc) (coll : list Permission.doc)
    (module action : string) : bool :=
  if String.eqb (role this) "admin" then true
  else
    match permissions this ≫= (.!! module) with
    | Some c => Js.is_true (Caps.read c action)
    | None =>
        match shop this with
        | None => false
        | Some _ =>
            match Permission.findOne (shop this) (role this) coll with
            | None => false
            | Some permission =>
                match Permission.permissions permission !! module with
                | Some c => Js.is_true (Caps.read c action)
                | None => false
                end
            end
        end
    end.

(** [this.accessiblePages && this.accessiblePages.length > 0] *)
Definition nonempty (pages : option (list string)) : option (list string) :=
  match pages with
  | Some (p :: ps) => Some (p :: ps)
  | _ => None
  end.

(** [pages.includes(page)] *)
Definition includes (pages : list string) (page : string) : bool :=
  bool_decide (page ∈ pages).

(** [userSchema.methods.canAccessPage] *)
Definition canAccessPage (this : doc) (coll : list Permission.doc)
    (page : string) : bool :=
  if String.eqb (role this) "admin" then true
  else
    match nonempty (accessiblePages this) with
    | Some pages => includes pages page
    | None =>
        match shop this with
        | None => false
        | Some _ =>
            match Permission.findOne (shop this) (role this) coll with
            | None => false
            | Some permission => includes (Permission.pageAccess permission) page
            end
        end
    end.

(** The admin branch of [getPermissions]: every available page with every
    available action set to [true]. *)
Definition allPermissions : gmap string Entry.t :=
  foldl (fun all page =>
           <[page := foldl (fun e action => Entry.set action (Js.boolean true) e)
                          Entry.empty Permission.getAvailableActions]> all)
        ∅ Permission.getAvailablePages.

(** [rolePermission.permissions.forEach((value, key) =>
      { permissions[key] = { ...value } })]; every [value] is a
    sub-document. *)
Definition copyRole (m : gmap string Caps.t) : gmap string Entry.t :=
  map_fold (fun key value permissions =>
              <[key := Entry.spread value]> permissions) ∅ m.

(** One step of the override loop:
    [if (!permissions[key]) permissions[key] = {};
     Object.keys(value).forEach(action => {
       if (value[action] !== undefined) permissions[key][action] = value[action] })];
    [value] is a sub-document. *)
Definition mergeEntry (key : string) (value : Caps.t)
    (permissions : gmap string Entry.t) : gmap string Entry.t :=
  let permissions :=
    match permissions !! key with
    | None => <[key := Entry.empty]> permissions
    | Some _ => permissions
    end in
  alter (Entry.take value) key permissions.

(** [this.permissions.forEach(...)] over the account's own map. *)
Definition mergeOverrides (own : option (gmap string Caps.t))
    (permissions : gmap string Entry.t) : gmap string Entry.t :=
  match own with
  | Some m => map_fold mergeEntry permissions m
  | None => permissions
  end.

(** [new Set(l)] keeps the first occurrence of each element, in order. *)
Definition Set_add (s : list string) (x : string) : list string :=
  if bool_decide (x ∈ s) then s else s ++ [x].

Definition new_Set (l : list string) : list string := foldl Set_add [] l.

(** [userSchema.methods.getPermissions] *)
Definition getPermissions (this : doc) (coll : list Permission.doc) : resolved :=
  if String.eqb (role this) "admin" then
    mkResolved allPermissions Permission.getAvailablePages (role this)
  else
    let this_permissions := permissions this in
    let this_accessiblePages := accessiblePages this in
    let rolePermission := Permission.findOne (shop this) (role this) coll in
    let permissions :=
      match rolePermission with
      | Some p => copyRole (Permission.permissions p)
      | None => ∅
      end in
    let accessiblePages :=
      match rolePermission with
      | Some p => Permission.pageAccess p
      | None => []
      end in
    let permissions := mergeOverrides this_permissions permissions in
    let accessiblePages :=
      match nonempty this_accessiblePages with
      | Some pages => new_Set (accessiblePages ++ pages)
      | None => accessiblePages
      end in
    mkResolved permissions accessiblePages (role this).

(** [User.updateMany({ shop, role },
      { $unset: { permissions: 1, accessiblePages: 1 } })] *)
Definition matches (shopId : ObjectId) (r : string) (u : doc) : bool :=
  bool_decide (shop u = Some shopId) && String.eqb (role u) r.

Definition unset (u : doc) : doc :=
  mk (_id u) (name u) (email u) (role u) (shop u) (isActive u) None None.

Definition updateMany (shopId : ObjectId) (r : string) (coll : list doc)
  : list doc :=
  (fun u => if matches shopId r u then unset u else u) <$> coll.

End User.

(** ** [Models/Shop.js] *)
Module Shop.

Record doc := mk {
  _id : ObjectId;
  name : string;
  owner : ObjectId
}.

Definition roles : list string :=
  ["admin"; "shop_owner"; "optometrist"; "assistant"; "receptionist"].

(** The body of the loop of [initializePermissions]: one upsert; the store
    keeps each entry with the defaults of its schema. *)
Definition initializeRole (this : doc) (coll : list Permission.doc)
    (role : string) : list Permission.doc :=
  let defaultPermissions := Permission.getDefaultPermissions role in
  let defaultPages := Permission.keys defaultPermissions in
  let permissionsMap :=
    Permission.cast <$> Permission.permissionsMap defaultPermissions in
  Permission.findOneAndUpdate (_id this) role
    (fun d => Permission.mk (_id this) role permissionsMap defaultPages
                (Permission.isActive d) (owner this))
    (Permission.mk (_id this) role permissionsMap defaultPages true (owner this))
    coll.

(** [shopSchema.methods.initializePermissions] *)
Definition initializePermissions (this : doc) (coll : list Permission.doc)
  : list Permission.doc :=
  foldl (initializeRole this) coll roles.

End Shop.

(** ** [middleware/permissions.js] *)
Module Middleware.

Inductive outcome := next | status401 | status403.

(** [checkPermission(module, action)] applied to a request. *)
Definition checkPermission (module action : string) (user : option User.doc)
    (coll : list Permission.doc) : outcome :=
  match user with
  | None => status401
  | Some u =>
      if String.eqb (User.role u) "admin" then next
      else if User.hasPermission u coll module action then next
      else status403
  end.

(** [checkPageAccess(page)] applied to a request. *)
Definition checkPageAccess (page : string) (user : option User.doc)
    (coll : list Permission.doc) : outcome :=
  match user with
  | None => status401
  | Some u =>
      if String.eqb (User.role u) "admin" then next
      else if User.canAccessPage u coll page then next
      else status403
  end.

End Middleware.

(** ** [controllers/permissionController.js] *)
Module Controller.

(** The two collections the controller writes. *)
Record db := mkDb {
  Permissions : list Permission.doc;
  Users : list User.doc
}.

(** The parts of a request the handlers read.  [user] is the account the
    authentication middleware attached; [shopId] and [role] are the route
    parameters (the role is not validated by the route, and [shopId] is taken
    to be a well-formed id); the last two come from the body. *)
Record request := mkRequest {
  user : User.doc;
  shopId : ObjectId;
  role : string;
  permissions : option (gmap string Caps.t);
  pageAccess : option (list string)
}.

Inductive response := status200 | status403 | status500.

(** The check that opens both handlers.  A caller who is not admin and has
    no shop makes [userShopId.toString()] throw, which the handler turns
    into a 500. *)
Definition denied (req : request) : option response :=
  if String.eqb (User.role (user req)) "admin" then None
  else
    match User.shop (user req) with
    | None => Some status500
    | Some userShopId =>
        if negb (String.eqb userShopId (shopId req)) then Some status403
        else if negb (String.eqb (User.role (user req)) "shop_owner")
        then Some status403
        else None
    end.

(** [Object.keys(permissions).forEach(page =>
      permissionsMap.set(page, permissions[page]))] on the request body. *)
Definition bodyMap (permissions : option (gmap string Caps.t))
  : gmap string Caps.t :=
  match permissions with
  | Some m => map_fold (fun page c permissionsMap => <[page := c]> permissionsMap) ∅ m
  | None => ∅
  end.

(** The upsert shared by the two handlers, followed by the [updateMany];
    the store keeps each entry with the defaults of its schema. *)
Definition write (req : request) (permissionsMap : gmap string Caps.t)
    (pages : list string) (s : db) : db :=
  let createdBy := User._id (user req) in
  let permissionsMap := Permission.cast <$> permissionsMap in
  mkDb
    (Permission.findOneAndUpdate (shopId req) (role req)
       (fun d => Permission.mk (Permission.shop d) (Permission.role d)
                   permissionsMap pages (Permission.isActive d) createdBy)
       (Permission.mk (shopId req) (role req) permissionsMap pages true createdBy)
       (Permissions s))
    (User.updateMany (shopId req) (role req) (Users s)).

(** [updateRolePermissions].  When the store refuses the map of the body,
    [findOneAndUpdate] throws before anything is written and the handler
    answers 500. *)
Definition updateRolePermissions (req : request) (s : db) : response * db :=
  match denied req with
  | Some r => (r, s)
  | None =>
      let permissionsMap := bodyMap (permissions req) in
      if forallb Permission.validKey (map_to_list permissionsMap).*1
      then (status200, write req permissionsMap (default [] (pageAccess req)) s)
      else (status500, s)
  end.

(** [resetRolePermissions] *)
Definition resetRolePermissions (req : request) (s : db) : response * db :=
  match denied req with
  | Some r => (r, s)
  | None =>
      let defaultPermissions := Permission.getDefaultPermissions (role req) in
      let defaultPages := Permission.keys defaultPermissions in
      (status200,
       write req (Permission.permissionsMap defaultPermissions) defaultPages s)
  end.

End Controller.


(** ** The vocabulary of the specification, in terms of the code *)
Module Spec.

(** [resolve(account)] is [getPermissions]. *)
Definition resolve (account : User.doc) (coll : list Permission.doc)
  : User.resolved :=
  User.getPermissions account coll.

(** [authorize(account, module, action)]: the [checkPermission] middleware
    lets the request through. *)
Definition authorize (account : User.doc) (coll : list Permission.doc)
    (module action : string) : bool :=
  match Middleware.checkPermission module action (Some account) coll with
  | Middleware.next => true
  | _ => false
  end.

(** [authorizePage(account, page)]: the [checkPageAccess] middleware lets
    the request through. *)
Definition authorizePage (account : User.doc) (coll : list Permission.doc)
    (page : string) : bool :=
  match Middleware.checkPageAccess page (Some account) coll with
  | Middleware.next => true
  | _ => false
  end.

(** [r.permissions.get(module)?.[action] === true] *)
Definition grants (r : User.resolved) (module action : string) : bool :=
  match User.r_permissions r !! module with
  | Some e => Entry.is_true e action
  | None => false
  end.

(** The role defaults of an account: the [permissions] and [pageAccess] of
    the active record of its (shop, role), empty when there is none. *)
Definition roleDefaults (account : User.doc) (coll : list Permission.doc)
  : gmap string Caps.t :=
  match Permission.findOne (User.shop account) (User.role account) coll with
  | Some p => Permission.permissions p
  | None => ∅
  end.

Definition rolePages (account : User.doc) (coll : list Permission.doc)
  : list string :=
  match Permission.findOne (User.shop account) (User.role account) coll with
  | Some p => Permission.pageAccess p
  | None => []
  end.

(** The account-level overrides, empty when the paths are unset. *)
Definition overrides (account : User.doc) : gmap string Caps.t :=
  default ∅ (User.permissions account).

Definition ownPages (account : User.doc) : list string :=
  default [] (User.accessiblePages account).

(** Field-level merge of an override entry over a role-default entry, as
    the specification describes it. *)
Definition overlay (value base : Caps.t) : Caps.t :=
  Caps.mk
    (if Js.defined (Caps.view value) then Caps.view value else Caps.view base)
    (if Js.defined (Caps.create value) then Caps.create value else Caps.create base)
    (if Js.defined (Caps.edit value) then Caps.edit value else Caps.edit base)
    (if Js.defined (Caps.delete value) then Caps.delete value else Caps.delete base)
    (if Js.defined (Caps.export value) then Caps.export value else Caps.export base)
    (if Js.defined (Caps.import value) then Caps.import value else Caps.import base)
    (if Js.defined (Caps.manage value) then Caps.manage value else Caps.manage base).

(** The first document of the collection under the key (shop, role). *)
Definition stored (shopId : ObjectId) (role : string)
    (coll : list Permission.doc) : option Permission.doc :=
  List.find (Permission.matches shopId role) coll.


(** The map of [resolve(account)] as the specification words it: the
    field-level merge of the entries of the role's active record with the
    account's overrides, module by module. *)
Definition merged (account : User.doc) (coll : list Permission.doc)
  : gmap string Caps.t :=
  merge (fun value base =>
           match value with
           | Some c => Some (overlay c (default Caps.empty base))
           | None => base
           end)
    (overrides account) (roleDefaults account coll).

(** [m.get(module)?.[action] === true] on a map of capability records. *)
Definition sets (m : gmap string Caps.t) (module action : string) : bool :=
  match m !! module with
  | Some c => Js.is_true (Caps.get c action)
  | None => false
  end.



(** Who may write the record of a (shop, role): an administrator, or a shop
    owner of that shop. *)
Definition mayWrite (req : Controller.request) : Prop :=
  User.role (Controller.user req) = "admin"
  \/ User.shop (Controller.user req) = Some (Controller.shopId req)
     /\ User.role (Controller.user req) = "shop_owner".

End Spec.

(** ** Sample data *)
Module Sample.

Definition shopA : ObjectId := "650000000000000000000a01".
Definition shopB : ObjectId := "650000000000000000000b02".
Definition ownerA : ObjectId := "650000000000000000000a10".

(** Role defaults [{customers: {view: true, create: false}}] with pages
    [dashboard, customers]. *)
Definition assistantRecord : Permission.doc :=
  Permission.mk shopA "assistant"
    {[ "customers"
       := Permission.cast (Caps.obj [("view", true); ("create", false)]) ]}
    ["dashboard"; "customers"] true ownerA.

(** An assistant with the override [{customers: {create: true}}] and the
    page [reports]. *)
Definition ann : User.doc :=
  User.mk "650000000000000000000a11" "Ann" "ann@shopa.example.com" "assistant"
    (Some shopA) true
    (Some {[ "customers" := Caps.obj [("create", true)] ]})
    (Some ["reports"]).

(** An assistant of the same shop without overrides. *)
Definition bob : User.doc :=
  User.mk "650000000000000000000a12" "Bob" "bob@shopa.example.com" "assistant"
    (Some shopA) true (Some ∅) (Some []).

(** An assistant of another shop, and an optometrist of the same shop, both
    with overrides. *)
Definition cyd : User.doc :=
  User.mk "650000000000000000000b11" "Cyd" "cyd@shopb.example.com" "assistant"
    (Some shopB) true
    (Some {[ "records" := Caps.obj [("delete", true)] ]})
    (Some ["billing"]).

Definition dee : User.doc :=
  User.mk "650000000000000000000a13" "Dee" "dee@shopa.example.com" "optometrist"
    (Some shopA) true
    (Some {[ "billing" := Caps.obj [("view", true)] ]})
    (Some ["billing"]).

(** An optometrist of shop A without overrides. *)
Definition eve : User.doc :=
  User.mk "650000000000000000000a14" "Eve" "eve@shopa.example.com" "optometrist"
    (Some shopA) true (Some ∅) (Some []).

(** The owner of shop A. *)
Definition owner : User.doc :=
  User.mk ownerA "Olu" "olu@shopa.example.com" "shop_owner"
    (Some shopA) true (Some ∅) (Some []).

(** An administrator attached to shop A who carries the override
    [{customers: {view: false}}], and the record of (shop A, admin). *)
Definition root : User.doc :=
  User.mk "650000000000000000000001" "Root" "admin@optometrypro.com" "admin"
    (Some shopA) true
    (Some {[ "customers" := Caps.obj [("view", false)] ]})
    (Some []).

Definition adminRecord : Permission.doc :=
  Permission.mk shopA "admin"
    {[ "customers" := Permission.cast (Caps.obj [("view", true)]) ]}
    ["customers"] true ownerA.

Definition shop : Shop.doc := Shop.mk shopA "Shop A" ownerA.

Definition store : Controller.db :=
  Controller.mkDb [assistantRecord] [ann; bob; cyd; dee; owner].

(** [PUT /shop/A/role/assistant] by the owner, with
    [{customers: {delete: true}}]. *)
Definition updateAssistant : Controller.request :=
  Controller.mkRequest owner shopA "assistant"
    (Some {[ "customers" := Caps.obj [("delete", true)] ]})
    (Some ["customers"]).

(** [POST /shop/A/role/assistant/reset] by the owner. *)
Definition resetAssistant : Controller.request :=
  Controller.mkRequest owner shopA "assistant" None None.

(** [POST /shop/A/role/constructor/reset] by the administrator. *)
Definition resetConstructor : Controller.request :=
  Controller.mkRequest root shopA "constructor" None None.

End Sample.


(** ** [middleware/permissions.js]: the batch check *)
Module Batch.

(** What [checkMultiplePermissions] does with a request: it calls [next],
    answers 401, or answers 403 with a message that names one (action,
    module) pair. *)
Inductive verdict :=
| pass
| unauthenticated
| refused (module action : string).

(** The [for (const { module, action } of permissions)] loop: the first pair
    that [hasPermission] refuses, if there is one. *)
Fixpoint firstRefused (user : User.doc) (coll : list Permission.doc)
    (permissions : list (string * string)) : option (string * string) :=
  match permissions with
  | [] => None
  | (module, action) :: permissions' =>
      if User.hasPermission user coll module action
      then firstRefused user coll permissions'
      else Some (module, action)
  end.

(** [checkMultiplePermissions(permissions)] applied to a request. *)
Definition checkMultiplePermissions (permissions : list (string * string))
    (user : option User.doc) (coll : list Permission.doc) : verdict :=
  match user with
  | None => unauthenticated
  | Some u =>
      if String.eqb (User.role u) "admin" then pass
      else
        match firstRefused u coll permissions with
        | Some (module, action) => refused module action
        | None => pass
        end
  end.

End Batch.

(** ** [middleware/validation.js] *)
Module Validation.

Inductive outcome := next | status400 | status403.

(** A request value that may be missing; the empty string is falsy. *)
Definition falsy (v : option string) : bool :=
  match v with
  | None => true
  | Some v => String.eqb v ""
  end.

(** [a || b] *)
Definition or_else (a b : option string) : option string :=
  if falsy a then b else a.

(** [validateShopOwnership]; the three values are [req.params.shopId],
    [req.body.shop] and [req.query.shop]. *)
Definition validateShopOwnership (user : User.doc)
    (params_shopId body_shop query_shop : option string) : outcome :=
  if String.eqb (User.role user) "admin" then next
  else
    let shopId := or_else (or_else params_shopId body_shop) query_shop in
    if falsy shopId then status400
    else
      match User.shop user, shopId with
      | Some userShop, Some shopId =>
          if String.eqb userShop shopId then next else status403
      | _, _ => status403
      end.

End Validation.

(** ** [controllers/permissionController.js]: the other handlers *)
Module Handlers.

(** An answer: 200 with a body, or an error status. *)
Inductive reply (A : Type) :=
| ok (body : A)
| badRequest
| forbidden
| notFound
| serverError.
Arguments ok {A} body.
Arguments badRequest {A}.
Arguments forbidden {A}.
Arguments notFound {A}.
Arguments serverError {A}.

(** [User.findById(userId)] *)
Definition findById (userId : ObjectId) (coll : list User.doc)
  : option User.doc :=
  List.find (fun u => String.eqb (User._id u) userId) coll.

(** The assignments of [userSchema.methods.updatePermissions]; an object or
    an array is truthy even when it is empty.  The user schema sets no
    default, so the entries are kept with the flags they are given. *)
Definition updatePermissions (this : User.doc)
    (permissions : option (gmap string Caps.t))
    (accessiblePages : option (list string)) : User.doc :=
  User.mk (User._id this) (User.name this) (User.email this) (User.role this)
    (User.shop this) (User.isActive this)
    match permissions with
    | Some p => Some (list_to_map (map_to_list p))
    | None => User.permissions this
    end
    match accessiblePages with
    | Some pages => Some pages
    | None => User.accessiblePages this
    end.

(** [this.save()], once the document has passed its validators: it is
    written back under its [_id]. *)
Fixpoint save (this : User.doc) (coll : list User.doc) : list User.doc :=
  match coll with
  | [] => []
  | u :: coll' =>
      if String.eqb (User._id u) (User._id this) then this :: coll'
      else u :: save this coll'
  end.

(** The [user] object of the answer of [createUserPermissions]. *)
Record summary := mkSummary {
  id : ObjectId;
  name : string;
  email : string;
  role : string
}.

(** [createUserPermissions].  For a caller who is not admin,
    [user.shop.toString() !== userShopId.toString()] throws when either
    account has no shop, which the handler turns into a 500.
    [updatePermissions] throws when a key of the map is one that the store
    refuses, and when the document fails the validators that [this.save()]
    runs on it, those of [name], [email] and [password] among them; [valid]
    stands for these validators.  The handler then answers 500 and nothing
    is written. *)
Definition createUserPermissions (valid : User.doc -> bool)
    (caller : User.doc) (userId : ObjectId)
    (permissions : option (gmap string Caps.t))
    (accessiblePages : option (list string)) (s : Controller.db)
  : reply summary * Controller.db :=
  match findById userId (Controller.Users s) with
  | None => (notFound, s)
  | Some user =>
      let updated := updatePermissions user permissions accessiblePages in
      let done :=
        if forallb Permission.validKey (map_to_list (default ∅ permissions)).*1
           && valid updated
        then
          (ok (mkSummary (User._id updated) (User.name updated)
                 (User.email updated) (User.role updated)),
           Controller.mkDb (Controller.Permissions s)
             (save updated (Controller.Users s)))
        else (serverError, s) in
      if String.eqb (User.role caller) "admin" then done
      else
        match User.shop user, User.shop caller with
        | Some userShop, Some userShopId =>
            if negb (String.eqb userShop userShopId) then (forbidden, s)
            else if negb (String.eqb (User.role caller) "shop_owner")
            then (forbidden, s)
            else done
        | _, _ => (serverError, s)
        end
  end.

(** A user document loaded with
    [.select('permissions accessiblePages role')]: the paths that are not
    named, [shop] among them, are not loaded. *)
Record selected := mkSelected {
  sel_id : ObjectId;
  sel_role : string;
  sel_shop : option ObjectId;
  sel_permissions : option (gmap string Caps.t);
  sel_accessiblePages : option (list string)
}.

Definition select (u : User.doc) : selected :=
  mkSelected (User._id u) (User.role u) None (User.permissions u)
    (User.accessiblePages u).

(** The body of the answer of [getUserSpecificPermissions]. *)
Record overridesView := mkOverridesView {
  v_userId : ObjectId;
  v_permissions : gmap string Entry.t;
  v_accessiblePages : option (list string);
  v_role : string
}.

(** [getUserSpecificPermissions].  For a caller who is not admin,
    [user.shop.toString()] throws when [user.shop] is not loaded, which the
    handler turns into a 500; [permissionsObj[key] = { ...value }] spreads
    sub-documents. *)
Definition getUserSpecificPermissions (caller : User.doc) (userId : ObjectId)
    (s : Controller.db) : reply overridesView :=
  match select <$> findById userId (Controller.Users s) with
  | None => notFound
  | Some user =>
      let permissionsObj :=
        match sel_permissions user with
        | Some m =>
            map_fold (fun key value obj => <[key := Entry.spread value]> obj)
              ∅ m
        | None => ∅
        end in
      let done :=
        ok (mkOverridesView (sel_id user) permissionsObj
              (sel_accessiblePages user) (sel_role user)) in
      if String.eqb (User.role caller) "admin" then done
      else
        match sel_shop user, User.shop caller with
        | Some userShop, Some userShopId =>
            if negb (String.eqb userShop userShopId) then forbidden else done
        | _, _ => serverError
        end
  end.







(** [checkUserPermission]; [module] and [action] are the query values. *)
Definition checkUserPermission (caller : User.doc)
    (module action : option string) (coll : list Permission.doc)
  : reply (bool * string * string) :=
  match module, action with
  | Some module, Some action =>
      if Validation.falsy (Some module) || Validation.falsy (Some action)
      then badRequest
      else ok (User.hasPermission caller coll module action, module, action)
  | _, _ => badRequest
  end.

(** [checkPageAccess], the handler; [page] is the query value. *)
Definition checkPageAccess (caller : User.doc) (page : option string)
    (coll : list Permission.doc) : reply (bool * string) :=
  match page with
  | Some page =>
      if Validation.falsy (Some page) then badRequest
      else ok (User.canAccessPage caller coll page, page)
  | None => badRequest
  end.

End Handlers.

(** ** More sample data *)
Module Cases.

(** The assistant record of shop A, deactivated. *)
Definition inactiveRecord : Permission.doc :=
  Permission.mk Sample.shopA "assistant"
    {[ "customers" := Permission.cast (Caps.obj [("view", true)]) ]}
    ["customers"] false Sample.ownerA.

Definition inactiveStore : Controller.db :=
  Controller.mkDb [inactiveRecord] [Sample.ann; Sample.bob].

(** The override [{users: {manage: true}}]. *)
Definition grantUsers : gmap string Caps.t :=
  {[ "users" := Caps.obj [("manage", true)] ]}.

(** Validators that the documents of the sample pass. *)
Definition passes (u : User.doc) : bool := true.

End Cases.


(** * Facts about the embedding *)

(** ** Capability records *)
Section CapsFacts.

Lemma foldl_filter_guard {A B} (P : B -> bool) (f : A -> B -> A) (l : list B) :
  forall a, foldl f a (List.filter P l) = foldl (fun a x => if P x then f a x else a) a l.
Proof.
  induction l as [|x l IH]; intros a; simpl; [done|].
  destruct (P x); simpl; apply IH.
Qed.

(** Membership in a literal list, by evaluation. *)
Lemma known (a : string) : bool_decide (a ∈ Caps.paths) -> a ∈ Caps.paths.
Proof. apply bool_decide_unpack. Qed.

(** Case analysis on the comparisons of a name with the path names. *)
Ltac by_name :=
  repeat match goal with
         | |- context [String.eqb ?x ?y] =>
             destruct (String.eqb_spec x y); subst; simpl in *; try congruence
         end.

Lemma get_set_same (a : string) (v : Js.flag) (c : Caps.t) :
  a ∈ Caps.paths -> Caps.get (Caps.set a v c) a = v.
Proof.
  unfold Caps.paths. rewrite !elem_of_cons, elem_of_nil.
  intros H. unfold Caps.get, Caps.set. by_name. tauto.
Qed.

Lemma get_set_other (a a' : string) (v : Js.flag) (c : Caps.t) :
  a <> a' -> Caps.get (Caps.set a v c) a' = Caps.get c a'.
Proof.
  intros H. unfold Caps.get, Caps.set. by_name.
Qed.

Lemma get_outside (a : string) (c : Caps.t) :
  a ∉ Caps.paths -> Caps.get c a = Js.undefined.
Proof.
  unfold Caps.paths. rewrite !not_elem_of_cons.
  intros H. unfold Caps.get. by_name; tauto.
Qed.

Lemma caps_ext (c c' : Caps.t) :
  (forall a, a ∈ Caps.paths -> Caps.get c a = Caps.get c' a) -> c = c'.
Proof.
  intros H.
  destruct c as [v1 v2 v3 v4 v5 v6 v7], c' as [w1 w2 w3 w4 w5 w6 w7].
  pose proof (H "view" (known "view" I)).
  pose proof (H "create" (known "create" I)).
  pose proof (H "edit" (known "edit" I)).
  pose proof (H "delete" (known "delete" I)).
  pose proof (H "export" (known "export" I)).
  pose proof (H "import" (known "import" I)).
  pose proof (H "manage" (known "manage" I)).
  cbn in *. congruence.
Qed.

(** On the seven paths a sub-document answers its flag. *)
Lemma read_paths (c : Caps.t) (a : string) :
  a ∈ Caps.paths -> Caps.read c a = Caps.get c a.
Proof.
  unfold Caps.paths. rewrite !elem_of_cons, elem_of_nil.
  intros H. unfold Caps.read.
  destruct (String.eqb_spec a "$isSubdocument") as [->|_];
    [repeat (destruct H as [H|H]; [discriminate|]); done|].
  destruct (String.eqb_spec a "$isSingleNested") as [->|_];
    [repeat (destruct H as [H|H]; [discriminate|]); done|].
  done.
Qed.

(** The store's defaults, flag by flag. *)
Lemma get_cast (c : Caps.t) (a : string) :
  a ∈ Caps.paths ->
  Caps.get (Permission.cast c) a = Permission.default_false (Caps.get c a).
Proof.
  unfold Caps.paths. rewrite !elem_of_cons, elem_of_nil.
  intros H. unfold Caps.get, Permission.cast. by_name. tauto.
Qed.

Lemma is_true_default_false (v : Js.flag) :
  Js.is_true (Permission.default_false v) = Js.is_true v.
Proof. by destruct v. Qed.

Lemma cast_cast (c : Caps.t) : Permission.cast (Permission.cast c) = Permission.cast c.
Proof. by destruct c as [[| |?] [| |?] [| |?] [| |?] [| |?] [| |?] [| |?]]. Qed.

End CapsFacts.

(** ** The override merge of [getPermissions] *)
Section MergeFacts.

Lemma get_overlay (value base : Caps.t) (action : string) :
  Caps.get (Spec.overlay value base) action
  = if Js.defined (Caps.get value action) then Caps.get value action
    else Caps.get base action.
Proof.
  unfold Caps.get.
  repeat (destruct (String.eqb action _); [reflexivity|]).
  reflexivity.
Qed.

(** One step of the override loop leaves the entry of the key with the
    [_doc] of the override, and the other entries as they were. *)
Lemma lookup_mergeEntry (key : string) (value : Caps.t)
    (permissions : gmap string Entry.t) (k : string) :
  User.mergeEntry key value permissions !! k
  = if decide (key = k)
    then Some (Entry.take value (default Entry.empty (permissions !! key)))
    else permissions !! k.
Proof.
  unfold User.mergeEntry. rewrite lookup_alter.
  case_decide as Hk; [subst k|].
  - destruct (permissions !! key) as [c|] eqn:Hc.
    + by rewrite Hc.
    + by rewrite lookup_insert_eq.
  - destruct (permissions !! key); [done|]. by rewrite lookup_insert_ne.
Qed.

Lemma lookup_mergeOverrides (own : gmap string Caps.t)
    (permissions : gmap string Entry.t) (k : string) :
  User.mergeOverrides (Some own) permissions !! k
  = match own !! k with
    | Some value =>
        Some (Entry.take value (default Entry.empty (permissions !! k)))
    | None => permissions !! k
    end.
Proof.
  unfold User.mergeOverrides.
  apply (map_fold_weak_ind (fun r (m : gmap string Caps.t) =>
    r !! k = match m !! k with
             | Some value =>
                 Some (Entry.take value (default Entry.empty (permissions !! k)))
             | None => permissions !! k
             end)).
  - by rewrite lookup_empty.
  - intros i x m r Hi IH. rewrite lookup_mergeEntry, lookup_insert.
    case_decide as Hk; [subst k|done].
    by rewrite IH, Hi.
Qed.

(** The copy of the role record holds the spread of each entry. *)
Lemma lookup_copyRole (m : gmap string Caps.t) (k : string) :
  User.copyRole m !! k = Entry.spread <$> m !! k.
Proof.
  unfold User.copyRole.
  apply (map_fold_weak_ind (fun r (m : gmap string Caps.t) =>
    r !! k = Entry.spread <$> m !! k)); [by rewrite !lookup_empty|].
  intros i x m' r _ IH. rewrite !lookup_insert.
  by case_decide.
Qed.

Lemma bodyMap_id (m : gmap string Caps.t) : Controller.bodyMap (Some m) = m.
Proof.
  unfold Controller.bodyMap.
  apply (map_fold_weak_ind (fun r (m : gmap string Caps.t) => r = m)); [done|].
  by intros i x m' r _ ->.
Qed.

End MergeFacts.

(** ** The resolver and the gate *)
Section ResolverFacts.

Lemma role_admin (account : User.doc) :
  User.role account <> "admin" -> String.eqb (User.role account) "admin" = false.
Proof. intros H. by apply String.eqb_neq. Qed.

(** The gate is [hasPermission]: its own admin test repeats the method's. *)
Lemma authorize_hasPermission (account : User.doc) (coll : list Permission.doc)
    (module action : string) :
  Spec.authorize account coll module action
  = User.hasPermission account coll module action.
Proof.
  unfold Spec.authorize, Middleware.checkPermission.
  destruct (String.eqb (User.role account) "admin") eqn:Hr.
  - unfold User.hasPermission. by rewrite Hr.
  - by destruct (User.hasPermission account coll module action).
Qed.

Lemma authorizePage_canAccessPage (account : User.doc)
    (coll : list Permission.doc) (page : string) :
  Spec.authorizePage account coll page = User.canAccessPage account coll page.
Proof.
  unfold Spec.authorizePage, Middleware.checkPageAccess.
  destruct (String.eqb (User.role account) "admin") eqn:Hr.
  - unfold User.canAccessPage. by rewrite Hr.
  - by destruct (User.canAccessPage account coll page).
Qed.

(** [hasPermission] reads the account's entry for the module when there is
    one, and the role's entry otherwise. *)
Lemma hasPermission_entry (account : User.doc) (coll : list Permission.doc)
    (module action : string) :
  User.role account <> "admin" ->
  User.hasPermission account coll module action
  = match Spec.overrides account !! module with
    | Some c => Js.is_true (Caps.read c action)
    | None =>
        match Spec.roleDefaults account coll !! module with
        | Some c => Js.is_true (Caps.read c action)
        | None => false
        end
    end.
Proof.
  intros Hr. unfold User.hasPermission, Spec.overrides, Spec.roleDefaults.
  rewrite (role_admin _ Hr).
  destruct (User.permissions account) as [m|]; simpl.
  - destruct (m !! module); [done|].
    destruct (User.shop account) eqn:Hs; [|simpl; by rewrite lookup_empty].
    rewrite <- Hs. by destruct (Permission.findOne _ _ _).
  - rewrite lookup_empty.
    destruct (User.shop account) eqn:Hs; [|simpl; by rewrite lookup_empty].
    rewrite <- Hs. by destruct (Permission.findOne _ _ _).
Qed.

(** The merged object of [getPermissions], entry by entry. *)
Lemma resolve_entry (account : User.doc) (coll : list Permission.doc)
    (module : string) :
  User.role account <> "admin" ->
  User.r_permissions (Spec.resolve account coll) !! module
  = match Spec.overrides account !! module with
    | Some c =>
        Some (Entry.take c
                (default Entry.empty
                   (Entry.spread <$> Spec.roleDefaults account coll !! module)))
    | None => Entry.spread <$> Spec.roleDefaults account coll !! module
    end.
Proof.
  intros Hr.
  unfold Spec.resolve, User.getPermissions, Spec.overrides, Spec.roleDefaults.
  rewrite (role_admin _ Hr).
  assert (forall k,
            match Permission.findOne (User.shop account) (User.role account) coll with
            | Some p => User.copyRole (Permission.permissions p)
            | None => ∅
            end !! k
            = Entry.spread
                <$> match Permission.findOne (User.shop account)
                            (User.role account) coll with
                    | Some p => Permission.permissions p
                    | None => ∅
                    end !! k) as Hcopy.
  { intros k. destruct (Permission.findOne _ _ _); [apply lookup_copyRole|].
    by rewrite !lookup_empty. }
  cbv zeta. cbn [User.r_permissions].
  destruct (User.permissions account) as [m|]; cbn [default].
  - rewrite lookup_mergeOverrides, !Hcopy. done.
  - cbn [User.mergeOverrides]. rewrite lookup_empty. apply Hcopy.
Qed.

(** No entry of the merged object of an account that is not admin owns a
    flag. *)
Lemma resolve_no_flag (account : User.doc) (coll : list Permission.doc)
    (module action : string) :
  User.role account <> "admin" ->
  Spec.grants (Spec.resolve account coll) module action = false.
Proof.
  intros Hr. unfold Spec.grants. rewrite resolve_entry by done.
  destruct (Spec.overrides account !! module) as [c|].
  - unfold Entry.is_true. cbn [Entry.take Entry.flags].
    destruct (Spec.roleDefaults account coll !! module); cbn;
      unfold Caps.get; by repeat case_match.
  - destruct (Spec.roleDefaults account coll !! module); cbn; [|done].
    unfold Entry.is_true, Caps.get. cbn. by repeat case_match.
Qed.

Lemma resolve_pages (account : User.doc) (coll : list Permission.doc) :
  User.role account <> "admin" ->
  User.r_accessiblePages (Spec.resolve account coll)
  = match User.nonempty (User.accessiblePages account) with
    | Some pages => User.new_Set (Spec.rolePages account coll ++ pages)
    | None => Spec.rolePages account coll
    end.
Proof.
  intros Hr. unfold Spec.resolve, User.getPermissions, Spec.rolePages.
  rewrite (role_admin _ Hr). simpl. by destruct (User.nonempty _).
Qed.

(** [new Set(l)]: no duplicates, same members. *)
Lemma Set_add_spec (l : list string) :
  forall s, NoDup s ->
    NoDup (foldl User.Set_add s l)
    /\ forall x, x ∈ foldl User.Set_add s l <-> x ∈ s \/ x ∈ l.
Proof.
  induction l as [|y l IH]; intros s Hs; simpl.
  - split; [done|]. intros x. rewrite elem_of_nil. tauto.
  - unfold User.Set_add at 2 4. case_bool_decide as Hy.
    + destruct (IH s Hs) as [Hn Hm]. split; [done|].
      intros x. rewrite Hm, elem_of_cons. split; [tauto|].
      intros [?|[->|?]]; tauto.
    + assert (NoDup (s ++ [y])) as Hs'.
      { apply NoDup_app. split_and!; [done| |apply NoDup_singleton].
        intros x Hx ->%list_elem_of_singleton. done. }
      destruct (IH _ Hs') as [Hn Hm]. split; [done|].
      intros x. rewrite Hm, elem_of_app, list_elem_of_singleton, elem_of_cons.
      tauto.
Qed.

Lemma new_Set_spec (l : list string) :
  NoDup (User.new_Set l) /\ forall x, x ∈ User.new_Set l <-> x ∈ l.
Proof.
  destruct (Set_add_spec l [] (NoDup_nil_2)) as [Hn Hm]. split; [done|].
  intros x. rewrite Hm, elem_of_nil. tauto.
Qed.

(** [canAccessPage] reads the account's own list when it is not empty, and
    the role's list otherwise. *)
Lemma canAccessPage_list (account : User.doc) (coll : list Permission.doc)
    (page : string) :
  User.role account <> "admin" ->
  User.canAccessPage account coll page
  = match User.nonempty (User.accessiblePages account) with
    | Some pages => User.includes pages page
    | None => User.includes (Spec.rolePages account coll) page
    end.
Proof.
  intros Hr. unfold User.canAccessPage, Spec.rolePages.
  rewrite (role_admin _ Hr).
  destruct (User.nonempty _); [done|].
  destruct (User.shop account) eqn:Hs; [|done].
  rewrite <- Hs. by destruct (Permission.findOne _ _ _).
Qed.

Lemma nonempty_ownPages (account : User.doc) :
  match User.nonempty (User.accessiblePages account) with
  | Some pages => Spec.ownPages account = pages /\ pages <> []
  | None => Spec.ownPages account = []
  end.
Proof.
  unfold Spec.ownPages. by destruct (User.accessiblePages account) as [[|p ps]|].
Qed.

End ResolverFacts.

(** ** The administrator's universal grant *)
Section AdminFacts.

Lemma lookup_foldl_insert {A} (v : A) (l : list string) (k : string) :
  forall acc : gmap string A,
    foldl (fun all page => <[page := v]> all) acc l !! k
    = if bool_decide (k ∈ l) then Some v else acc !! k.
Proof.
  induction l as [|x l IH]; intros acc; simpl; [done|].
  rewrite IH. destruct (decide (k = x)) as [->|Hne].
  - rewrite (bool_decide_true (x ∈ x :: l)) by apply list_elem_of_here.
    rewrite lookup_insert_eq. by case_bool_decide.
  - rewrite lookup_insert_ne by done.
    apply (f_equal (fun b : bool => if b then Some v else acc !! k)).
    apply bool_decide_ext. rewrite elem_of_cons. tauto.
Qed.

Lemma allPermissions_lookup (page : string) :
  User.allPermissions !! page
  = if bool_decide (page ∈ Permission.getAvailablePages)
    then Some (Entry.mk
                 (Caps.mk (Js.boolean true) (Js.boolean true) (Js.boolean true)
                    (Js.boolean true) (Js.boolean true) (Js.boolean true)
                    (Js.boolean true))
                 None)
    else None.
Proof.
  unfold User.allPermissions. rewrite lookup_foldl_insert.
  by rewrite lookup_empty.
Qed.

End AdminFacts.

(** ** The permission collection under [findOneAndUpdate] *)
Section Upsert.

Variables (shopId : ObjectId) (r : string).
Variables (update : Permission.doc -> Permission.doc) (fresh : Permission.doc).

(** The update leaves the key of the document it is applied to in place, and
    the inserted document carries the key of the filter. *)
Hypothesis update_key :
  forall d, Permission.matches shopId r d = true ->
            Permission.matches shopId r (update d) = true.
Hypothesis fresh_key : Permission.matches shopId r fresh = true.

Lemma matches_key (s : ObjectId) (x : string) (d : Permission.doc) :
  Permission.matches s x d = true
  <-> Permission.key d = (s, x).
Proof.
  unfold Permission.matches, Permission.key.
  rewrite andb_true_iff, !String.eqb_eq. split; [by intros [-> ->]|].
  by intros [= -> ->].
Qed.

Lemma stored_upsert (coll : list Permission.doc) :
  Spec.stored shopId r
    (Permission.findOneAndUpdate shopId r update fresh coll)
  = Some (match Spec.stored shopId r coll with
          | Some d => update d
          | None => fresh
          end).
Proof.
  unfold Spec.stored.
  induction coll as [|d coll IH]; simpl.
  - by rewrite fresh_key.
  - destruct (Permission.matches shopId r d) eqn:Hd; simpl.
    + by rewrite (update_key d Hd).
    + by rewrite Hd.
Qed.


Lemma keys_upsert (coll : list Permission.doc) :
  Permission.key <$> Permission.findOneAndUpdate shopId r update fresh coll
  = if bool_decide ((shopId, r) ∈ Permission.key <$> coll)
    then Permission.key <$> coll
    else ((Permission.key <$> coll) ++ [(shopId, r)])%list.
Proof.
  induction coll as [|d coll IH]; cbn [Permission.findOneAndUpdate].
  - rewrite fmap_nil, bool_decide_false by apply not_elem_of_nil.
    apply matches_key in fresh_key. cbn. by rewrite fresh_key.
  - rewrite (fmap_cons _ d coll).
    destruct (Permission.matches shopId r d) eqn:Hd.
    + pose proof (update_key d Hd) as Hu.
      apply matches_key in Hd, Hu.
      rewrite bool_decide_true by (rewrite Hd; apply list_elem_of_here).
      by rewrite fmap_cons, Hu, Hd.
    + rewrite fmap_cons, IH.
      assert (Permission.key d <> (shopId, r)) as Hne.
      { intros Hk%matches_key. congruence. }
      rewrite (bool_decide_ext ((shopId, r) ∈ Permission.key d :: (Permission.key <$> coll))
                 ((shopId, r) ∈ Permission.key <$> coll)).
      * by case_bool_decide.
      * rewrite elem_of_cons. split; [|tauto]. intros [?|?]; [congruence|done].
Qed.

Lemma unique_index_upsert (coll : list Permission.doc) :
  Permission.unique_index coll ->
  Permission.unique_index
    (Permission.findOneAndUpdate shopId r update fresh coll).
Proof.
  unfold Permission.unique_index. intros Hn. rewrite keys_upsert.
  case_bool_decide as Hin; [done|].
  apply NoDup_app. split_and!; [done| |apply NoDup_singleton].
  by intros k Hk ->%list_elem_of_singleton.
Qed.



Hypothesis update_idem : forall d, update (update d) = update d.
Hypothesis update_fresh : update fresh = fresh.


End Upsert.

(** ** The static defaults *)
Section DefaultsFacts.

Lemma own_prop_absent {A} (t : list (string * A)) (k : string) :
  k ∉ t.*1 -> Js.own_prop t k = None.
Proof.
  induction t as [|[k' a] t IH]; [done|].
  rewrite fmap_cons, not_elem_of_cons. simpl. intros [Hne Hk].
  destruct (String.eqb_spec k' k); [congruence|by apply IH].
Qed.




(** The fallback is taken for the names that [defaults] neither owns nor
    inherits. *)
Lemma getDefaultPermissions_fallback (role : string) :
  role ∉ Shop.roles ->
  Js.inherits role = false ->
  Permission.getDefaultPermissions role = Permission.table Permission.assistant.
Proof.
  intros Hr Hi. unfold Permission.getDefaultPermissions, Js.get_prop.
  rewrite own_prop_absent, Hi; done.
Qed.

(** An inherited name is answered by the prototype. *)
Lemma getDefaultPermissions_inherited (role : string) :
  Js.inherits role = true ->
  Permission.getDefaultPermissions role = Permission.builtin role.
Proof.
  intros Hi. unfold Permission.getDefaultPermissions, Js.get_prop.
  rewrite own_prop_absent, Hi; [done|].
  unfold Js.inherits in Hi. apply bool_decide_eq_true in Hi.
  unfold Js.Object_prototype in Hi.
  repeat (apply elem_of_cons in Hi as [->|Hi];
          [apply (bool_decide_unpack _); vm_compute; exact I|]).
  by apply elem_of_nil in Hi.
Qed.


End DefaultsFacts.

(** ** The handlers *)
Section HandlerFacts.

Lemma denied_not_200 (req : Controller.request) (r : Controller.response) :
  Controller.denied req = Some r -> r <> Controller.status200.
Proof.
  unfold Controller.denied. intros H. repeat case_match; congruence.
Qed.


Lemma matches_user (shopId : ObjectId) (r : string) (u : User.doc) :
  User.matches shopId r u = true
  <-> User.shop u = Some shopId /\ User.role u = r.
Proof.
  unfold User.matches.
  by rewrite andb_true_iff, bool_decide_eq_true, String.eqb_eq.
Qed.

Lemma denied_None (req : Controller.request) :
  Controller.denied req = None <-> Spec.mayWrite req.
Proof.
  unfold Controller.denied, Spec.mayWrite.
  destruct (String.eqb_spec (User.role (Controller.user req)) "admin")
    as [Ha|Ha]; [tauto|].
  destruct (User.shop (Controller.user req)) as [us|].
  - destruct (String.eqb_spec us (Controller.shopId req)) as [->|Hs]; simpl.
    + destruct (String.eqb_spec (User.role (Controller.user req))
                  "shop_owner"); simpl.
      * split; [tauto|done].
      * split; [done|]. intros [?|[_ ?]]; congruence.
    + split; [done|]. intros [?|[[= ?] _]]; congruence.
  - split; [done|]. intros [?|[[=] _]]; congruence.
Qed.

(** What a 200 of either handler has written. *)
Lemma reset_200 (req : Controller.request) (s : Controller.db) :
  fst (Controller.resetRolePermissions req s) = Controller.status200
  <-> Controller.denied req = None.
Proof.
  unfold Controller.resetRolePermissions.
  destruct (Controller.denied req) as [r|] eqn:Hd; simpl; [|done].
  apply denied_not_200 in Hd. split; congruence.
Qed.

Lemma update_200 (req : Controller.request) (s : Controller.db) :
  fst (Controller.updateRolePermissions req s) = Controller.status200
  <-> Controller.denied req = None
      /\ forallb Permission.validKey
           (map_to_list (Controller.bodyMap (Controller.permissions req))).*1
         = true.
Proof.
  unfold Controller.updateRolePermissions.
  destruct (Controller.denied req) as [r|] eqn:Hd; cbv zeta.
  - apply denied_not_200 in Hd. cbn. split; [congruence|]. by intros [? _].
  - destruct (forallb _ _); cbn; split; try done. by intros [_ ?].
Qed.

Lemma written_200
    (handler : Controller.request -> Controller.db
               -> Controller.response * Controller.db)
    (req : Controller.request) (s : Controller.db) :
  handler = Controller.updateRolePermissions
  \/ handler = Controller.resetRolePermissions ->
  fst (handler req s) = Controller.status200 ->
  exists m pages, snd (handler req s) = Controller.write req m pages s.
Proof.
  intros [-> | ->] H200.
  - apply update_200 in H200 as [Hd Hk].
    unfold Controller.updateRolePermissions. rewrite Hd. cbv zeta.
    rewrite Hk. by eexists _, _.
  - apply reset_200 in H200.
    unfold Controller.resetRolePermissions. rewrite H200. by eexists _, _.
Qed.

Lemma not_200_unchanged (req : Controller.request) (s : Controller.db) :
  (fst (Controller.updateRolePermissions req s) <> Controller.status200 ->
   snd (Controller.updateRolePermissions req s) = s)
  /\ (fst (Controller.resetRolePermissions req s) <> Controller.status200 ->
      snd (Controller.resetRolePermissions req s) = s).
Proof.
  unfold Controller.updateRolePermissions, Controller.resetRolePermissions.
  destruct (Controller.denied req) as [r|]; cbv zeta; [done|].
  by destruct (forallb _ _).
Qed.


End HandlerFacts.

(** ** [initializePermissions], one role at a time *)
Section InitializeFacts.

Variable this : Shop.doc.







End InitializeFacts.

(** ** Three scenarios of the specification, by evaluation *)
Section Scenarios.

(** After a shop is initialized, an optometrist can view, create and edit
    records but not delete them. *)
Example optometrist_after_initialize :
  let coll := Shop.initializePermissions Sample.shop [] in
  length coll = 5
  /\ Spec.authorize Sample.eve coll "records" "view" = true
  /\ Spec.authorize Sample.eve coll "records" "create" = true
  /\ Spec.authorize Sample.eve coll "records" "edit" = true
  /\ Spec.authorize Sample.eve coll "records" "delete" = false.
Proof. vm_compute. by repeat split. Qed.

(** The owner replaces the assistant record by [{customers: {delete: true}}]:
    the gate then lets an assistant of the shop delete customers, Ann's
    overrides are gone, and the accounts of another shop or role keep
    theirs. *)
Example update_assistant_record :
  let s := snd (Controller.updateRolePermissions Sample.updateAssistant
                  Sample.store) in
  Spec.authorize Sample.bob (Controller.Permissions s) "customers" "delete"
  = true
  /\ Controller.Users s
     = [User.unset Sample.ann; User.unset Sample.bob; Sample.cyd; Sample.dee;
        Sample.owner].
Proof. vm_compute. by split. Qed.

(** The owner resets the assistant record: it carries the assistant table
    again. *)
Example reset_assistant_record :
  let s := snd (Controller.resetRolePermissions Sample.resetAssistant
                  Sample.store) in
  Permission.pageAccess <$> Controller.Permissions s
  = [["dashboard"; "customers"; "records"; "appointments"]]
  /\ Spec.authorize Sample.bob (Controller.Permissions s) "records" "create"
     = true
  /\ Spec.authorize Sample.bob (Controller.Permissions s) "records" "edit"
     = false.
Proof. vm_compute. by repeat split. Qed.

End Scenarios.

(** * The claims *)

(** C1 (as amended).  For an account that is not admin and each of the
    seven capabilities, the gate lets (module, action) through exactly when
    the entry that decides the module holds [true] for the action: the
    account's own entry for the module when it has one, and otherwise the
    entry of the active record of its (shop, role); a missing entry, a
    missing flag and [false] all deny.  Put against the field-level merge
    of the role's record with the account's overrides: the gate lets
    (module, action) through exactly when that merge grants it and the
    account's own entry for the module, if it has one, defines the
    action. *)
Theorem authorize_iff_deciding_entry (account : User.doc)
    (coll : list Permission.doc) (module action : string) :
  User.role account <> "admin" ->
  action ∈ Caps.paths ->
  (Spec.authorize account coll module action = true
   <-> match Spec.overrides account !! module with
       | Some c => Caps.get c action = Js.boolean true
       | None =>
           exists c, Spec.roleDefaults account coll !! module = Some c
                     /\ Caps.get c action = Js.boolean true
       end)
  /\ (Spec.authorize account coll module action = true
      <-> Spec.sets (Spec.merged account coll) module action = true
          /\ (forall c, Spec.overrides account !! module = Some c ->
                        Js.defined (Caps.get c action) = true)).
Proof.
  intros Hr Ha. rewrite authorize_hasPermission, hasPermission_entry by done.
  unfold Spec.sets, Spec.merged. rewrite lookup_merge.
  destruct (Spec.overrides account !! module) as [c|]; cbn.
  - rewrite read_paths, get_overlay by done. split.
    + destruct (Caps.get c action) as [| |[|]]; cbn; split; congruence.
    + split.
      * intros Hc. assert (Js.defined (Caps.get c action) = true) as Hd
          by (by destruct (Caps.get c action)).
        rewrite Hd. split; [done|]. by intros c' [= <-].
      * intros [Hg Hd]. by rewrite (Hd c eq_refl) in Hg.
  - destruct (Spec.roleDefaults account coll !! module) as [c|]; cbn.
    + rewrite read_paths by done. split.
      * split.
        -- intros H. exists c. split; [done|].
           by destruct (Caps.get c action) as [| |[|]].
        -- intros (c' & [= <-] & ->). done.
      * split; [|tauto]. intros H. split; [done|]. by intros c' [=].
    + split.
      * split; [done|]. by intros (c' & [=] & _).
      * split; [done|tauto].
Qed.

(** C1, as stated, fails.  Ann carries the override
    [{customers: {create: true}}] over the role default
    [{customers: {view: true, create: false}}].  The gate lets
    [customers.create] through, and the resolver's output does not grant
    it.  The gate refuses [customers.view], which the field-level merge of
    the two entries grants. *)
Lemma authorize_differs_from_resolve :
  User.role Sample.ann <> "admin"
  /\ ~ (Spec.authorize Sample.ann [Sample.assistantRecord] "customers" "create"
        = true
        <-> Spec.grants (Spec.resolve Sample.ann [Sample.assistantRecord])
              "customers" "create" = true)
  /\ ~ (Spec.authorize Sample.ann [Sample.assistantRecord] "customers" "view"
        = true
        <-> Spec.sets (Spec.merged Sample.ann [Sample.assistantRecord])
              "customers" "view" = true).
Proof.
  split_and!; [done| |].
  - intros [H _].
    assert (Spec.authorize Sample.ann [Sample.assistantRecord] "customers"
              "create" = true) as Hg by (vm_compute; reflexivity).
    apply H in Hg. vm_compute in Hg. discriminate.
  - intros [_ H].
    assert (Spec.sets (Spec.merged Sample.ann [Sample.assistantRecord])
              "customers" "view" = true) as Hg by (vm_compute; reflexivity).
    apply H in Hg. vm_compute in Hg. discriminate.
Qed.

(** An instance: Ann and [customers.create], which her own entry grants. *)
Lemma authorize_iff_deciding_entry_witness :
  User.role Sample.ann <> "admin"
  /\ "create" ∈ Caps.paths
  /\ Spec.authorize Sample.ann [Sample.assistantRecord] "customers" "create"
     = true.
Proof.
  assert (User.role Sample.ann <> "admin") as H by done.
  assert ("create" ∈ Caps.paths) as Ha
    by (apply (bool_decide_unpack _); vm_compute; exact I).
  split_and!; [exact H|exact Ha|].
  apply (proj1 (authorize_iff_deciding_entry Sample.ann
                  [Sample.assistantRecord] "customers" "create" H Ha)).
  reflexivity.
Defined.

(** C2 (as amended).  For an account that is not admin, the page gate lets
    a page through exactly when the page is in the resolver's merged set
    and the account's own list is empty or contains the page.
    [canAccessPage] consults the account's own list alone once it is not
    empty; the role's pages are then reachable through the resolver only. *)
Theorem authorizePage_iff_resolve_lists (account : User.doc)
    (coll : list Permission.doc) (page : string) :
  User.role account <> "admin" ->
  Spec.authorizePage account coll page = true
  <-> page ∈ User.r_accessiblePages (Spec.resolve account coll)
      /\ (Spec.ownPages account = [] \/ page ∈ Spec.ownPages account).
Proof.
  intros Hr. rewrite authorizePage_canAccessPage, canAccessPage_list by done.
  rewrite resolve_pages by done.
  pose proof (nonempty_ownPages account) as Hown.
  destruct (User.nonempty (User.accessiblePages account)) as [pages|].
  - destruct Hown as [-> Hne]. unfold User.includes.
    rewrite bool_decide_eq_true.
    destruct (new_Set_spec (Spec.rolePages account coll ++ pages)) as [_ Hm].
    rewrite Hm, elem_of_app. tauto.
  - rewrite Hown. unfold User.includes. rewrite bool_decide_eq_true. tauto.
Qed.

(** C2, as stated, fails: Ann lists the page [reports] herself, so the gate
    refuses [dashboard], which the resolver still reports from her role. *)
Lemma authorizePage_differs_from_resolve :
  User.role Sample.ann <> "admin"
  /\ ~ (Spec.authorizePage Sample.ann [Sample.assistantRecord] "dashboard" = true
        <-> "dashboard"
              ∈ User.r_accessiblePages
                  (Spec.resolve Sample.ann [Sample.assistantRecord])).
Proof.
  split; [done|]. intros [_ H].
  assert (Spec.authorizePage Sample.ann [Sample.assistantRecord] "dashboard"
          = true) as Hp; [|vm_compute in Hp; discriminate].
  apply H. apply (bool_decide_unpack _). vm_compute. exact I.
Qed.

(** An instance: Ann and the page [reports] of her own list. *)
Lemma authorizePage_iff_resolve_lists_witness :
  User.role Sample.ann <> "admin"
  /\ (Spec.authorizePage Sample.ann [Sample.assistantRecord] "reports" = true
      <-> "reports"
            ∈ User.r_accessiblePages
                (Spec.resolve Sample.ann [Sample.assistantRecord])
          /\ (Spec.ownPages Sample.ann = []
              \/ "reports" ∈ Spec.ownPages Sample.ann)).
Proof.
  assert (User.role Sample.ann <> "admin") as H by done.
  split; [exact H|].
  exact (authorizePage_iff_resolve_lists Sample.ann [Sample.assistantRecord]
           "reports" H).
Defined.

(** C3.  For an account whose role is admin, whatever the collection of
    permission records and whatever the account's own overrides: the gate
    lets every (module, action) and every page through, and the resolver
    returns the thirteen known pages, each of them as a module whose entry
    holds [true] for each of the seven capabilities, and no other
    module. *)
Theorem admin_universal_grant (account : User.doc)
    (coll : list Permission.doc) :
  User.role account = "admin" ->
  let known :=
    ["dashboard"; "customers"; "records"; "appointments"; "billing";
     "inventory"; "reports"; "settings"; "users"; "permissions"; "analytics";
     "notifications"; "help"] in
  (forall module action,
      Spec.authorize account coll module action = true
      /\ User.hasPermission account coll module action = true)
  /\ (forall page,
        Spec.authorizePage account coll page = true
        /\ User.canAccessPage account coll page = true)
  /\ User.r_accessiblePages (Spec.resolve account coll) = known
  /\ User.r_role (Spec.resolve account coll) = "admin"
  /\ (forall module,
        module ∈ known ->
        User.r_permissions (Spec.resolve account coll) !! module
        = Some (Entry.mk
                  (Caps.mk (Js.boolean true) (Js.boolean true)
                     (Js.boolean true) (Js.boolean true) (Js.boolean true)
                     (Js.boolean true) (Js.boolean true))
                  None)
        /\ forall action,
             action ∈ Caps.paths ->
             Spec.grants (Spec.resolve account coll) module action = true)
  /\ (forall module,
        is_Some (User.r_permissions (Spec.resolve account coll) !! module) ->
        module ∈ known).
Proof.
  intros Hr known.
  assert (String.eqb (User.role account) "admin" = true) as Hb
    by (by apply String.eqb_eq).
  assert (forall module,
            module ∈ known ->
            User.r_permissions (Spec.resolve account coll) !! module
            = Some (Entry.mk
                      (Caps.mk (Js.boolean true) (Js.boolean true)
                         (Js.boolean true) (Js.boolean true) (Js.boolean true)
                         (Js.boolean true) (Js.boolean true))
                      None)) as Hentry.
  { intros module Hm. unfold Spec.resolve, User.getPermissions. rewrite Hb.
    cbn [User.r_permissions].
    by rewrite allPermissions_lookup, bool_decide_true. }
  split_and!.
  - intros module action. rewrite authorize_hasPermission.
    unfold User.hasPermission. by rewrite Hb.
  - intros page. rewrite authorizePage_canAccessPage.
    unfold User.canAccessPage. by rewrite Hb.
  - unfold Spec.resolve, User.getPermissions. by rewrite Hb.
  - unfold Spec.resolve, User.getPermissions. by rewrite Hb.
  - intros module Hm. split; [by apply Hentry|].
    intros action Ha. unfold Spec.grants. rewrite Hentry by done.
    unfold Caps.paths in Ha.
    repeat (apply elem_of_cons in Ha as [->|Ha]; [reflexivity|]).
    by apply elem_of_nil in Ha.
  - intros module. unfold Spec.resolve, User.getPermissions. rewrite Hb.
    cbn [User.r_permissions]. rewrite allPermissions_lookup.
    case_bool_decide; [done|]. by intros [? [=]].
Qed.

(** An instance: Root, who carries the override [customers.view = false],
    with and without a record for (shop, admin). *)
Lemma admin_universal_grant_witness :
  User.role Sample.root = "admin"
  /\ Spec.authorize Sample.root [Sample.adminRecord] "customers" "view" = true
  /\ Spec.authorizePage Sample.root [] "billing" = true
  /\ Spec.grants (Spec.resolve Sample.root [Sample.adminRecord]) "help"
       "manage" = true.
Proof.
  split; [reflexivity|]. split_and!.
  - apply (admin_universal_grant Sample.root [Sample.adminRecord]). reflexivity.
  - apply (admin_universal_grant Sample.root []). reflexivity.
  - apply (admin_universal_grant Sample.root [Sample.adminRecord]);
      [reflexivity| |];
      apply (bool_decide_unpack _); vm_compute; exact I.
Defined.

(** C4.  An account that is not admin, has no active record for its
    (shop, role) and carries no override resolves to the empty map and the
    empty page list, and the gate refuses every (module, action) and every
    page; each of these calls returns a value. *)
Theorem fail_closed_without_record (account : User.doc)
    (coll : list Permission.doc) :
  User.role account <> "admin" ->
  Permission.findOne (User.shop account) (User.role account) coll = None ->
  Spec.overrides account = ∅ ->
  Spec.ownPages account = [] ->
  Spec.resolve account coll = User.mkResolved ∅ [] (User.role account)
  /\ (forall module action,
        Spec.authorize account coll module action = false
        /\ Middleware.checkPermission module action (Some account) coll
           = Middleware.status403)
  /\ (forall page,
        Spec.authorizePage account coll page = false
        /\ Middleware.checkPageAccess page (Some account) coll
           = Middleware.status403).
Proof.
  intros Hr Hnone Hov Hpg.
  assert (User.nonempty (User.accessiblePages account) = None) as Hn.
  { pose proof (nonempty_ownPages account) as H.
    destruct (User.nonempty _); [|done]. destruct H as [H1 H2]. congruence. }
  assert (forall module action,
             User.hasPermission account coll module action = false) as Hhp.
  { intros module action. rewrite hasPermission_entry by done.
    unfold Spec.roleDefaults. by rewrite Hov, Hnone, !lookup_empty. }
  assert (forall page, User.canAccessPage account coll page = false) as Hcp.
  { intros page. rewrite canAccessPage_list by done.
    unfold Spec.rolePages. by rewrite Hn, Hnone. }
  split_and!.
  - unfold Spec.resolve, User.getPermissions.
    rewrite (role_admin _ Hr), Hnone, Hn. simpl. f_equal.
    unfold Spec.overrides in Hov.
    destruct (User.permissions account) as [m|]; simpl in *; [|done].
    subst m. apply map_fold_empty.
  - intros module action. rewrite authorize_hasPermission. split; [done|].
    unfold Middleware.checkPermission. by rewrite (role_admin _ Hr), Hhp.
  - intros page. rewrite authorizePage_canAccessPage. split; [done|].
    unfold Middleware.checkPageAccess. by rewrite (role_admin _ Hr), Hcp.
Qed.

(** An instance: Bob, when the shop has a record for admin only. *)
Lemma fail_closed_without_record_witness :
  User.role Sample.bob <> "admin"
  /\ Permission.findOne (User.shop Sample.bob) (User.role Sample.bob)
       [Sample.adminRecord] = None
  /\ Spec.overrides Sample.bob = ∅
  /\ Spec.ownPages Sample.bob = []
  /\ Spec.resolve Sample.bob [Sample.adminRecord]
     = User.mkResolved ∅ [] "assistant"
  /\ Spec.authorize Sample.bob [Sample.adminRecord] "customers" "view" = false.
Proof.
  assert (User.role Sample.bob <> "admin") as H1 by done.
  assert (Permission.findOne (User.shop Sample.bob) (User.role Sample.bob)
            [Sample.adminRecord] = None) as H2 by reflexivity.
  assert (Spec.overrides Sample.bob = ∅) as H3 by reflexivity.
  assert (Spec.ownPages Sample.bob = []) as H4 by reflexivity.
  destruct (fail_closed_without_record Sample.bob [Sample.adminRecord]
              H1 H2 H3 H4) as (Hres & Hauth & _).
  split_and!; [exact H1|exact H2|exact H3|exact H4|exact Hres|apply Hauth].
Defined.

(** C5 (the code departs from the claim).  On the claim's own example, the
    role default [{customers: {view: true, create: false}}] with the
    override [{customers: {create: true}}] on an account that is not admin,
    the resolver answers a [customers] entry that owns no flag and whose
    [_doc] is the override alone: the entry of the role is replaced as a
    whole, and neither [view] nor [create] is granted by the output.  The
    field-level merge of the two entries, which the loop over the keys of
    the override sets out to compute, holds [view] and [create]. *)
Theorem override_merge_replaces_module :
  let r := Spec.resolve Sample.ann [Sample.assistantRecord] in
  let roleDefault :=
    Permission.cast (Caps.obj [("view", true); ("create", false)]) in
  let override := Caps.obj [("create", true)] in
  User.role Sample.ann <> "admin"
  /\ Spec.roleDefaults Sample.ann [Sample.assistantRecord]
     = {[ "customers" := roleDefault ]}
  /\ Spec.overrides Sample.ann = {[ "customers" := override ]}
  /\ User.r_permissions r
     = {[ "customers" := Entry.mk Caps.empty (Some override) ]}
  /\ Spec.grants r "customers" "view" = false
  /\ Spec.grants r "customers" "create" = false
  /\ Spec.merged Sample.ann [Sample.assistantRecord]
     = {[ "customers"
          := Caps.mk (Js.boolean true) (Js.boolean true) (Js.boolean false)
               (Js.boolean false) (Js.boolean false) (Js.boolean false)
               (Js.boolean false) ]}
  /\ Spec.sets (Spec.merged Sample.ann [Sample.assistantRecord])
       "customers" "view" = true
  /\ Spec.sets (Spec.merged Sample.ann [Sample.assistantRecord])
       "customers" "create" = true
  /\ User.r_permissions (Spec.resolve Sample.bob [Sample.assistantRecord])
     = {[ "customers" := Entry.mk Caps.empty (Some roleDefault) ]}.
Proof.
  cbv zeta. split_and!; try done; vm_compute; reflexivity.
Qed.

(** C6.  For an account that is not admin and whose own [accessiblePages]
    is not empty, the resolver's page list has no duplicates and its
    members are exactly the pages of the role default or of the account's
    own list.  In particular the role default [dashboard, customers] with
    the override [reports] resolves to [dashboard, customers, reports]. *)
Theorem pages_merge_is_union :
  (forall (account : User.doc) (coll : list Permission.doc)
          (p : string) (ps : list string),
      User.role account <> "admin" ->
      User.accessiblePages account = Some (p :: ps) ->
      NoDup (User.r_accessiblePages (Spec.resolve account coll))
      /\ forall page,
           page ∈ User.r_accessiblePages (Spec.resolve account coll)
           <-> page ∈ Spec.rolePages account coll \/ page ∈ p :: ps)
  /\ User.r_accessiblePages (Spec.resolve Sample.ann [Sample.assistantRecord])
     = ["dashboard"; "customers"; "reports"].
Proof.
  split.
  - intros account coll p ps Hr Hp. rewrite resolve_pages, Hp by done. simpl.
    destruct (new_Set_spec (Spec.rolePages account coll ++ p :: ps))
      as [Hn Hm].
    split; [done|]. intros page. by rewrite Hm, elem_of_app.
  - vm_compute. reflexivity.
Qed.

(** An instance: Ann's own list [reports]. *)
Lemma pages_merge_is_union_witness :
  User.role Sample.ann <> "admin"
  /\ User.accessiblePages Sample.ann = Some ["reports"]
  /\ NoDup (User.r_accessiblePages
              (Spec.resolve Sample.ann [Sample.assistantRecord])).
Proof.
  assert (User.role Sample.ann <> "admin") as H1 by done.
  assert (User.accessiblePages Sample.ann = Some ["reports"]) as H2
    by reflexivity.
  split_and!; [exact H1|exact H2|].
  exact (proj1 (proj1 pages_merge_is_union Sample.ann [Sample.assistantRecord]
                  "reports" [] H1 H2)).
Defined.







(** C10 (the code departs from the claim).  The role name [constructor] is
    not one of the five roles, yet the lookup [defaults[role]] finds the
    member of that name on the prototype of [defaults], which is truthy, so
    the fallback to the assistant table is not taken: the value handed back
    has no keys, and a reset of (shop, [constructor]) stores an empty map
    and an empty page list instead of the assistant defaults. *)
Theorem reset_with_inherited_role_name :
  ("constructor" ∉ Shop.roles)
  /\ Permission.getDefaultPermissions "constructor"
     = Permission.builtin "constructor"
  /\ Permission.getDefaultPermissions "constructor"
     <> Permission.table Permission.assistant
  /\ Controller.resetRolePermissions Sample.resetConstructor
       (Controller.mkDb [] [])
     = (Controller.status200,
        Controller.mkDb
          [Permission.mk Sample.shopA "constructor" ∅ [] true
             (User._id Sample.root)]
          []).
Proof.
  split_and!.
  - apply (bool_decide_unpack _). vm_compute. exact I.
  - reflexivity.
  - discriminate.
  - vm_compute. reflexivity.
Qed.

(** * Further properties of the code *)

(** ** The batch check *)
Section BatchFacts.

Lemma firstRefused_None (user : User.doc) (coll : list Permission.doc)
    (permissions : list (string * string)) :
  Batch.firstRefused user coll permissions = None
  <-> Forall (fun p => User.hasPermission user coll p.1 p.2 = true) permissions.
Proof.
  induction permissions as [|[module action] l IH]; simpl.
  - split; [constructor|done].
  - rewrite Forall_cons. simpl.
    destruct (User.hasPermission user coll module action); [|split; [done|]].
    + rewrite IH. tauto.
    + by intros [? _].
Qed.

Lemma firstRefused_Some (user : User.doc) (coll : list Permission.doc)
    (permissions : list (string * string)) (module action : string) :
  Batch.firstRefused user coll permissions = Some (module, action)
  <-> exists before after,
        permissions = (before ++ (module, action) :: after)%list
        /\ Forall (fun p => User.hasPermission user coll p.1 p.2 = true) before
        /\ User.hasPermission user coll module action = false.
Proof.
  revert module action.
  induction permissions as [|[m a] l IH]; intros module action; simpl.
  - split; [done|]. intros (before & after & H & _). by destruct before.
  - destruct (User.hasPermission user coll m a) eqn:Hp.
    + rewrite IH. split.
      * intros (before & after & -> & Hb & Hr).
        exists ((m, a) :: before), after. split_and!; [done| |done].
        by constructor.
      * intros (before & after & Hl & Hb & Hr).
        destruct before as [|[m' a'] before]; simpl in Hl.
        -- injection Hl as <- <- <-. congruence.
        -- injection Hl as <- <- ->. apply Forall_cons in Hb as [_ Hb].
           by exists before, after.
    + split.
      * intros [= <- <-]. by exists [], l.
      * intros (before & after & Hl & Hb & Hr).
        destruct before as [|[m' a'] before]; simpl in Hl.
        -- by injection Hl as <- <- <-.
        -- injection Hl as <- <- ->. apply Forall_cons in Hb as [Hb _].
           simpl in Hb. congruence.
Qed.

End BatchFacts.

(** X1.  For an authenticated request, [checkMultiplePermissions] calls
    [next] exactly when [hasPermission] holds for every listed pair; this
    covers the empty list and the administrator, for whom every pair
    holds. *)
Theorem batch_passes_iff_all (permissions : list (string * string))
    (user : User.doc) (coll : list Permission.doc) :
  Batch.checkMultiplePermissions permissions (Some user) coll = Batch.pass
  <-> Forall (fun p => User.hasPermission user coll p.1 p.2 = true)
        permissions.
Proof.
  unfold Batch.checkMultiplePermissions.
  destruct (String.eqb (User.role user) "admin") eqn:Hr.
  - split; [|done]. intros _. apply Forall_forall. intros [m a] _.
    unfold User.hasPermission. by rewrite Hr.
  - rewrite <- firstRefused_None.
    destruct (Batch.firstRefused user coll permissions) as [[m a]|]; [|done].
    split; discriminate.
Qed.

(** X2.  When [checkMultiplePermissions] answers 403, the pair it names is
    the first pair of the list that [hasPermission] refuses: every pair
    before it holds, and the caller is not admin. *)
Theorem batch_refusal_names_first (permissions : list (string * string))
    (user : User.doc) (coll : list Permission.doc) (module action : string) :
  Batch.checkMultiplePermissions permissions (Some user) coll
  = Batch.refused module action ->
  User.role user <> "admin"
  /\ exists before after,
       permissions = (before ++ (module, action) :: after)%list
       /\ Forall (fun p => User.hasPermission user coll p.1 p.2 = true) before
       /\ User.hasPermission user coll module action = false.
Proof.
  unfold Batch.checkMultiplePermissions.
  destruct (String.eqb (User.role user) "admin") eqn:Hr; [done|].
  apply String.eqb_neq in Hr.
  destruct (Batch.firstRefused user coll permissions) as [[m a]|] eqn:Hf;
    [|done].
  intros [= <- <-]. split; [done|]. by apply firstRefused_Some.
Qed.

(** An instance: Ann may create customers but not view them, so a batch of
    the two is refused on [view]. *)
Lemma batch_refusal_names_first_witness :
  Batch.checkMultiplePermissions
    [("customers", "create"); ("customers", "view")]
    (Some Sample.ann) [Sample.assistantRecord]
  = Batch.refused "customers" "view"
  /\ User.role Sample.ann <> "admin".
Proof.
  assert (Batch.checkMultiplePermissions
            [("customers", "create"); ("customers", "view")]
            (Some Sample.ann) [Sample.assistantRecord]
          = Batch.refused "customers" "view") as H by reflexivity.
  split; [exact H|].
  exact (proj1 (batch_refusal_names_first _ _ _ _ _ H)).
Defined.

(** X3.  Action names that are not capabilities.  The name [stats], by
    which the routes guarded with [checkPermission('dashboard', 'stats')]
    ask, is refused to every account that is not admin, whatever the
    records and the overrides.  The two marks of a sub-document are let
    through for such an account exactly when an entry decides the module:
    the account's own entry, or the entry of the active record of its
    (shop, role). *)
Theorem unknown_action_refused (account : User.doc)
    (coll : list Permission.doc) (module : string) :
  User.role account <> "admin" ->
  User.hasPermission account coll module "stats" = false
  /\ Middleware.checkPermission module "stats" (Some account) coll
     = Middleware.status403
  /\ forall action,
       action ∈ ["$isSubdocument"; "$isSingleNested"] ->
       User.hasPermission account coll module action = true
       <-> is_Some (Spec.overrides account !! module)
           \/ is_Some (Spec.roleDefaults account coll !! module).
Proof.
  intros Hr.
  assert (User.hasPermission account coll module "stats" = false) as Hp.
  { rewrite hasPermission_entry by done. by repeat case_match. }
  split_and!; [done| |].
  - unfold Middleware.checkPermission. by rewrite (role_admin _ Hr), Hp.
  - intros action Ha. rewrite hasPermission_entry by done.
    assert (forall c, Js.is_true (Caps.read c action) = true) as Hmark.
    { intros c.
      repeat (apply elem_of_cons in Ha as [->|Ha]; [reflexivity|]).
      by apply elem_of_nil in Ha. }
    destruct (Spec.overrides account !! module) as [c|].
    + rewrite Hmark. split; [by left|done].
    + destruct (Spec.roleDefaults account coll !! module) as [c|].
      * rewrite Hmark. split; [by right|done].
      * split; [done|]. by intros [[? [=]]|[? [=]]].
Qed.

(** An instance: the action [stats] for the shop owner of the sample. *)
Lemma unknown_action_refused_witness :
  User.role Sample.owner <> "admin"
  /\ Middleware.checkPermission "dashboard" "stats" (Some Sample.owner)
       (Shop.initializePermissions Sample.shop [])
     = Middleware.status403.
Proof.
  assert (User.role Sample.owner <> "admin") as H1 by done.
  split_and!; [exact H1|].
  exact (proj1 (proj2 (unknown_action_refused Sample.owner
                         (Shop.initializePermissions Sample.shop [])
                         "dashboard" H1))).
Defined.

(** ** Account overrides written and read through the handlers *)
Section OverrideHandlers.

Variable valid : User.doc -> bool.

Lemma findById_id (userId : ObjectId) (coll : list User.doc) (u : User.doc) :
  Handlers.findById userId coll = Some u -> User._id u = userId.
Proof.
  unfold Handlers.findById. intros [_ H]%List.find_some.
  by apply String.eqb_eq.
Qed.

(** Reading a document back after [save]. *)
Lemma findById_save (this : User.doc) (coll : list User.doc) (u : User.doc) :
  Handlers.findById (User._id this) coll = Some u ->
  Handlers.findById (User._id this) (Handlers.save this coll) = Some this.
Proof.
  unfold Handlers.findById.
  induction coll as [|x coll IH]; simpl; [done|].
  destruct (String.eqb (User._id x) (User._id this)) eqn:Hx; simpl.
  - by rewrite String.eqb_refl.
  - by rewrite Hx.
Qed.

Lemma save_other (this : User.doc) (coll : list User.doc) (i : nat)
    (u : User.doc) :
  coll !! i = Some u ->
  User._id u <> User._id this ->
  Handlers.save this coll !! i = Some u.
Proof.
  revert i. induction coll as [|x coll IH]; intros i Hi Hne; [done|].
  simpl. destruct i as [|i]; simpl in Hi.
  - injection Hi as ->. apply String.eqb_neq in Hne. by rewrite Hne.
  - destruct (String.eqb (User._id x) (User._id this)); [done|].
    by apply IH.
Qed.

Lemma length_save (this : User.doc) (coll : list User.doc) :
  length (Handlers.save this coll) = length coll.
Proof.
  induction coll as [|x coll IH]; simpl; [done|].
  destruct (String.eqb (User._id x) (User._id this)); simpl; by rewrite ?IH.
Qed.

Lemma spread_entries (m : gmap string Caps.t) :
  map_fold (fun key value (obj : gmap string Entry.t) =>
              <[key := Entry.spread value]> obj) ∅ m
  = Entry.spread <$> m.
Proof.
  apply (map_fold_weak_ind (fun r (m : gmap string Caps.t) =>
                              r = Entry.spread <$> m)).
  - by rewrite fmap_empty.
  - intros i x m' r _ ->. by rewrite fmap_insert.
Qed.


(** The ways through [createUserPermissions]. *)
Lemma createUserPermissions_cases (caller : User.doc) (userId : ObjectId)
    (permissions : option (gmap string Caps.t))
    (accessiblePages : option (list string)) (s : Controller.db) :
  match Handlers.findById userId (Controller.Users s) with
  | None =>
      Handlers.createUserPermissions valid caller userId permissions
        accessiblePages s = (Handlers.notFound, s)
  | Some user =>
      let updated :=
        Handlers.updatePermissions user permissions accessiblePages in
      let allowed :=
        User.role caller = "admin"
        \/ User.role caller = "shop_owner"
           /\ exists shopId, User.shop user = Some shopId
                             /\ User.shop caller = Some shopId in
      let accepted :=
        forallb Permission.validKey (map_to_list (default ∅ permissions)).*1
        && valid updated in
      (allowed /\ accepted = true
       /\ Handlers.createUserPermissions valid caller userId permissions
            accessiblePages s
          = (Handlers.ok (Handlers.mkSummary (User._id user) (User.name user)
                            (User.email user) (User.role user)),
             Controller.mkDb (Controller.Permissions s)
               (Handlers.save updated (Controller.Users s))))
      \/ (allowed /\ accepted = false
          /\ Handlers.createUserPermissions valid caller userId permissions
               accessiblePages s = (Handlers.serverError, s))
      \/ (~ allowed
          /\ exists r,
               Handlers.createUserPermissions valid caller userId permissions
                 accessiblePages s = (r, s)
               /\ (r = Handlers.forbidden \/ r = Handlers.serverError))
  end.
Proof.
  unfold Handlers.createUserPermissions.
  destruct (Handlers.findById userId (Controller.Users s)) as [user|];
    [|done].
  cbv zeta.
  set (accepted := forallb _ _ && valid _).
  assert (forall allowed : Prop,
            allowed ->
            (allowed /\ accepted = true
             /\ (if accepted
                 then (Handlers.ok
                         (Handlers.mkSummary (User._id user) (User.name user)
                            (User.email user) (User.role user)),
                       Controller.mkDb (Controller.Permissions s)
                         (Handlers.save
                            (Handlers.updatePermissions user permissions
                               accessiblePages) (Controller.Users s)))
                 else (Handlers.serverError, s))
                = (Handlers.ok
                     (Handlers.mkSummary (User._id user) (User.name user)
                        (User.email user) (User.role user)),
                   Controller.mkDb (Controller.Permissions s)
                     (Handlers.save
                        (Handlers.updatePermissions user permissions
                           accessiblePages) (Controller.Users s))))
            \/ (allowed /\ accepted = false
                /\ (if accepted
                    then (Handlers.ok
                            (Handlers.mkSummary (User._id user)
                               (User.name user) (User.email user)
                               (User.role user)),
                          Controller.mkDb (Controller.Permissions s)
                            (Handlers.save
                               (Handlers.updatePermissions user permissions
                                  accessiblePages) (Controller.Users s)))
                    else (Handlers.serverError, s))
                   = (Handlers.serverError, s))) as Hdone.
  { intros allowed Ha. destruct accepted; [left|right]; done. }
  destruct (String.eqb_spec (User.role caller) "admin") as [Hr|Hr].
  { destruct (Hdone _ (or_introl Hr : _ \/ (User.role caller = "shop_owner"
        /\ exists shopId, User.shop user = Some shopId
                          /\ User.shop caller = Some shopId)))
      as [H|H]; [by left|right; by left]. }
  destruct (User.shop user) as [us|];
    [|right; right; split; [by intros [?|(_ & sh & [=] & _)]|eauto]].
  destruct (User.shop caller) as [cs|];
    [|right; right; split; [by intros [?|(_ & sh & _ & [=])]|eauto]].
  destruct (String.eqb_spec us cs) as [<-|Hne]; simpl.
  - destruct (String.eqb_spec (User.role caller) "shop_owner") as [Ho|Ho];
      simpl.
    + assert (User.role caller = "admin"
              \/ User.role caller = "shop_owner"
                 /\ exists shopId, Some us = Some shopId
                                   /\ Some us = Some shopId) as Ha
        by (right; eauto).
      destruct (Hdone _ Ha) as [H|H]; [by left|right; by left].
    + right; right. split; [by intros [?|[? _]]|eauto].
  - right; right. split; [|eauto].
    intros [?|(_ & sh & [= ->] & [= ->])]; done.
Qed.

(** What a [createUserPermissions] that is answered with 200 leaves in the
    store. *)
Lemma createUserPermissions_ok (caller : User.doc) (userId : ObjectId)
    (permissions : option (gmap string Caps.t))
    (accessiblePages : option (list string)) (s : Controller.db)
    (body : Handlers.summary) :
  fst (Handlers.createUserPermissions valid caller userId permissions
         accessiblePages s) = Handlers.ok body ->
  exists user,
    Handlers.findById userId (Controller.Users s) = Some user
    /\ User._id user = userId
    /\ Handlers.role body = User.role user
    /\ snd (Handlers.createUserPermissions valid caller userId permissions
              accessiblePages s)
       = Controller.mkDb (Controller.Permissions s)
           (Handlers.save
              (User.mk userId (User.name user) (User.email user)
                 (User.role user) (User.shop user) (User.isActive user)
                 (match permissions with
                  | Some p => Some p
                  | None => User.permissions user
                  end)
                 (match accessiblePages with
                  | Some pages => Some pages
                  | None => User.accessiblePages user
                  end))
              (Controller.Users s)).
Proof.
  intros Hok.
  pose proof (createUserPermissions_cases caller userId permissions
                accessiblePages s) as H.
  destruct (Handlers.findById userId (Controller.Users s)) as [user|] eqn:Hf;
    cbv zeta in *.
  - destruct H as [(_ & _ & H)|[(_ & _ & H)|(_ & r & H & Hr)]];
      rewrite H in *; simpl in *.
    + pose proof (findById_id _ _ _ Hf) as Hid.
      exists user. split_and!; [done|done|by injection Hok as <-|].
      unfold Handlers.updatePermissions. rewrite Hid.
      destruct permissions; by rewrite ?list_to_map_to_list.
    + done.
    + by destruct Hr as [-> | ->].
  - by rewrite H in Hok.
Qed.

End OverrideHandlers.



(** X5.  When [createUserPermissions] is answered with 200, the permission
    collection is unchanged, every account with another id is unchanged,
    and the target account differs only in its overrides: a field that the
    body supplies replaces the stored one (an empty object or array
    included), a field that the body omits keeps its stored value. *)
Theorem override_write_frame (valid : User.doc -> bool) (caller : User.doc)
    (userId : ObjectId) (permissions : option (gmap string Caps.t))
    (accessiblePages : option (list string)) (s : Controller.db)
    (body : Handlers.summary) :
  fst (Handlers.createUserPermissions valid caller userId permissions
         accessiblePages s) = Handlers.ok body ->
  let s' :=
    snd (Handlers.createUserPermissions valid caller userId permissions
           accessiblePages s) in
  Controller.Permissions s' = Controller.Permissions s
  /\ length (Controller.Users s') = length (Controller.Users s)
  /\ (forall i u,
        Controller.Users s !! i = Some u ->
        User._id u <> userId ->
        Controller.Users s' !! i = Some u)
  /\ exists user,
       Handlers.findById userId (Controller.Users s) = Some user
       /\ Handlers.findById userId (Controller.Users s')
          = Some (User.mk (User._id user) (User.name user) (User.email user)
                    (User.role user) (User.shop user) (User.isActive user)
                    (match permissions with
                     | Some p => Some p
                     | None => User.permissions user
                     end)
                    (match accessiblePages with
                     | Some pages => Some pages
                     | None => User.accessiblePages user
                     end)).
Proof.
  intros Hok s'. subst s'.
  destruct (createUserPermissions_ok _ _ _ _ _ _ _ Hok)
    as (user & Hf & Hid & _ & ->).
  cbn [Controller.Permissions Controller.Users].
  split_and!; [done|apply length_save| |].
  - intros i u Hi Hne. apply save_other; [done|]. simpl. congruence.
  - exists user. rewrite Hid. split; [done|].
    by apply (findById_save (User.mk userId _ _ _ _ _ _ _) _ user).
Qed.

(** An instance: the owner of shop A gives Bob [users.manage]; the other
    accounts of the sample store are as they were. *)
Lemma override_write_frame_witness :
  let s' :=
    snd (Handlers.createUserPermissions Cases.passes Sample.owner
           (User._id Sample.bob) (Some Cases.grantUsers) None Sample.store) in
  fst (Handlers.createUserPermissions Cases.passes Sample.owner
         (User._id Sample.bob) (Some Cases.grantUsers) None Sample.store)
  = Handlers.ok (Handlers.mkSummary (User._id Sample.bob) "Bob"
                   "bob@shopa.example.com" "assistant")
  /\ Controller.Permissions s' = Controller.Permissions Sample.store
  /\ Controller.Users s'
     = [Sample.ann;
        User.mk (User._id Sample.bob) "Bob" "bob@shopa.example.com"
          "assistant" (Some Sample.shopA) true (Some Cases.grantUsers)
          (Some []);
        Sample.cyd; Sample.dee; Sample.owner].
Proof.
  cbv zeta.
  assert (fst (Handlers.createUserPermissions Cases.passes Sample.owner
                 (User._id Sample.bob) (Some Cases.grantUsers) None
                 Sample.store)
          = Handlers.ok (Handlers.mkSummary (User._id Sample.bob) "Bob"
                           "bob@shopa.example.com" "assistant")) as H
    by (vm_compute; reflexivity).
  split_and!; [exact H| |vm_compute; reflexivity].
  exact (proj1 (override_write_frame _ _ _ _ _ _ _ H)).
Defined.

(** X6.  What [createUserPermissions] has written is what an administrator
    reads back through [getUserSpecificPermissions]: the page list that was
    supplied, or the stored one when the body omitted it, the role of the
    account, and for each module of the supplied map (of the stored one
    when the body omitted it) the spread of its entry. *)
Theorem override_write_read_back (valid : User.doc -> bool)
    (caller reader : User.doc) (userId : ObjectId)
    (permissions : option (gmap string Caps.t))
    (accessiblePages : option (list string)) (s : Controller.db)
    (body : Handlers.summary) :
  fst (Handlers.createUserPermissions valid caller userId permissions
         accessiblePages s) = Handlers.ok body ->
  User.role reader = "admin" ->
  exists user,
    Handlers.findById userId (Controller.Users s) = Some user
    /\ Handlers.getUserSpecificPermissions reader userId
         (snd (Handlers.createUserPermissions valid caller userId permissions
                 accessiblePages s))
       = Handlers.ok
           (Handlers.mkOverridesView userId
              (Entry.spread
                 <$> match permissions with
                     | Some p => p
                     | None => default ∅ (User.permissions user)
                     end)
              (match accessiblePages with
               | Some pages => Some pages
               | None => User.accessiblePages user
               end)
              (User.role user)).
Proof.
  intros Hok Hr.
  destruct (createUserPermissions_ok _ _ _ _ _ _ _ Hok)
    as (user & Hf & Hid & _ & ->).
  exists user. split; [done|].
  unfold Handlers.getUserSpecificPermissions.
  cbn [Controller.Users].
  rewrite (findById_save (User.mk userId _ _ _ _ _ _ _) _ user) by done.
  apply String.eqb_eq in Hr. rewrite Hr. cbn.
  f_equal. f_equal.
  destruct permissions as [p|]; [apply spread_entries|].
  destruct (User.permissions user); [apply spread_entries|].
  cbn. by rewrite fmap_empty.
Qed.

(** An instance: Root reads back what the owner gave Bob. *)
Lemma override_write_read_back_witness :
  fst (Handlers.createUserPermissions Cases.passes Sample.owner
         (User._id Sample.bob) (Some Cases.grantUsers) (Some ["users"])
         Sample.store)
  = Handlers.ok (Handlers.mkSummary (User._id Sample.bob) "Bob"
                   "bob@shopa.example.com" "assistant")
  /\ User.role Sample.root = "admin"
  /\ exists user,
       Handlers.findById (User._id Sample.bob)
         (Controller.Users Sample.store) = Some user
       /\ Handlers.getUserSpecificPermissions Sample.root
            (User._id Sample.bob)
            (snd (Handlers.createUserPermissions Cases.passes Sample.owner
                    (User._id Sample.bob) (Some Cases.grantUsers)
                    (Some ["users"]) Sample.store))
          = Handlers.ok
              (Handlers.mkOverridesView (User._id Sample.bob)
                 (Entry.spread <$> Cases.grantUsers) (Some ["users"])
                 (User.role user)).
Proof.
  assert (fst (Handlers.createUserPermissions Cases.passes Sample.owner
                 (User._id Sample.bob) (Some Cases.grantUsers)
                 (Some ["users"]) Sample.store)
          = Handlers.ok (Handlers.mkSummary (User._id Sample.bob) "Bob"
                           "bob@shopa.example.com" "assistant")) as H1
    by (vm_compute; reflexivity).
  assert (User.role Sample.root = "admin") as H2 by reflexivity.
  split_and!; [exact H1|exact H2|].
  exact (override_write_read_back Cases.passes Sample.owner Sample.root
           (User._id Sample.bob) (Some Cases.grantUsers) (Some ["users"])
           Sample.store _ H1 H2).
Defined.

(** X7.  Once [createUserPermissions] has stored an entry for a module on
    an account that is not admin, [hasPermission] answers for that module
    from the entry alone: the stored account is allowed one of the seven
    capabilities exactly when the entry sets it to true, whatever the
    permission records say. *)
Theorem override_write_decides_module (valid : User.doc -> bool)
    (caller : User.doc) (userId : ObjectId)
    (p : gmap string Caps.t) (accessiblePages : option (list string))
    (s : Controller.db) (body : Handlers.summary) (module : string)
    (c : Caps.t) :
  fst (Handlers.createUserPermissions valid caller userId (Some p)
         accessiblePages s) = Handlers.ok body ->
  p !! module = Some c ->
  Handlers.role body <> "admin" ->
  exists user',
    Handlers.findById userId
      (Controller.Users
         (snd (Handlers.createUserPermissions valid caller userId (Some p)
                 accessiblePages s))) = Some user'
    /\ forall coll action,
         action ∈ Caps.paths ->
         User.hasPermission user' coll module action
         = Js.is_true (Caps.get c action).
Proof.
  intros Hok Hc Hrole.
  destruct (createUserPermissions_ok _ _ _ _ _ _ _ Hok)
    as (user & Hf & Hid & Hb & Hs).
  rewrite Hs. cbn [Controller.Users].
  eexists. split.
  - by apply (findById_save (User.mk userId _ _ _ _ _ _ _) _ user).
  - intros coll action Ha.
    rewrite hasPermission_entry by (simpl; congruence).
    unfold Spec.overrides. simpl. by rewrite Hc, read_paths.
Qed.

(** An instance: Bob's new entry for [users] against the records of the
    sample, which say nothing about [users] for an assistant. *)
Lemma override_write_decides_module_witness :
  fst (Handlers.createUserPermissions Cases.passes Sample.owner
         (User._id Sample.bob) (Some Cases.grantUsers) None Sample.store)
  = Handlers.ok (Handlers.mkSummary (User._id Sample.bob) "Bob"
                   "bob@shopa.example.com" "assistant")
  /\ Cases.grantUsers !! "users" = Some (Caps.obj [("manage", true)])
  /\ exists user',
       Handlers.findById (User._id Sample.bob)
         (Controller.Users
            (snd (Handlers.createUserPermissions Cases.passes Sample.owner
                    (User._id Sample.bob) (Some Cases.grantUsers) None
                    Sample.store))) = Some user'
       /\ User.hasPermission user' (Controller.Permissions Sample.store)
            "users" "manage" = true
       /\ User.hasPermission user' (Controller.Permissions Sample.store)
            "users" "view" = false.
Proof.
  assert (fst (Handlers.createUserPermissions Cases.passes Sample.owner
                 (User._id Sample.bob) (Some Cases.grantUsers) None
                 Sample.store)
          = Handlers.ok (Handlers.mkSummary (User._id Sample.bob) "Bob"
                           "bob@shopa.example.com" "assistant")) as H1
    by (vm_compute; reflexivity).
  assert (Cases.grantUsers !! "users" = Some (Caps.obj [("manage", true)]))
    as H2 by (vm_compute; reflexivity).
  assert (Handlers.role
            (Handlers.mkSummary (User._id Sample.bob) "Bob"
               "bob@shopa.example.com" "assistant") <> "admin") as H3
    by (simpl; discriminate).
  split_and!; [exact H1|exact H2|].
  destruct (override_write_decides_module Cases.passes Sample.owner
              (User._id Sample.bob) Cases.grantUsers None Sample.store _
              "users" _ H1 H2 H3) as (user' & Hf & Hgate).
  exists user'. split_and!; [exact Hf| |].
  - rewrite Hgate; [reflexivity|].
    apply (bool_decide_unpack _); vm_compute; exact I.
  - rewrite Hgate; [reflexivity|].
    apply (bool_decide_unpack _); vm_compute; exact I.
Defined.


(** ** Role records after a write *)
Section RegistryFacts.

(** The first document under a key is the one the resolver reads when it
    is active. *)
Lemma findOne_stored_active (shopId : ObjectId) (r : string)
    (coll : list Permission.doc) (d : Permission.doc) :
  Spec.stored shopId r coll = Some d ->
  Permission.isActive d = true ->
  Permission.findOne (Some shopId) r coll = Some d.
Proof.
  unfold Spec.stored, Permission.findOne.
  induction coll as [|x coll IH]; simpl; [done|].
  destruct (Permission.matches shopId r x) eqn:Hx; simpl.
  - intros [= ->] Ha. by rewrite Ha.
  - done.
Qed.

Lemma same_key_same_doc (coll : list Permission.doc)
    (x y : Permission.doc) :
  Permission.unique_index coll ->
  x ∈ coll -> y ∈ coll -> Permission.key x = Permission.key y -> x = y.
Proof.
  unfold Permission.unique_index.
  induction coll as [|z coll IH]; intros Hn Hx Hy Hk.
  - by apply elem_of_nil in Hx.
  - rewrite fmap_cons in Hn. apply NoDup_cons in Hn as [Hz Hn].
    apply elem_of_cons in Hx as [->|Hx]; apply elem_of_cons in Hy as [->|Hy].
    + done.
    + exfalso. apply Hz. rewrite Hk. by apply list_elem_of_fmap_2.
    + exfalso. apply Hz. rewrite <- Hk. by apply list_elem_of_fmap_2.
    + by apply IH.
Qed.

(** Under the unique index, a deactivated document hides its key from the
    resolver. *)
Lemma findOne_stored_inactive (shopId : ObjectId) (r : string)
    (coll : list Permission.doc) (d : Permission.doc) :
  Permission.unique_index coll ->
  Spec.stored shopId r coll = Some d ->
  Permission.isActive d = false ->
  Permission.findOne (Some shopId) r coll = None.
Proof.
  intros Hn Hs Ha. unfold Permission.findOne.
  destruct (List.find _ coll) as [x|] eqn:Hf; [|done].
  apply List.find_some in Hf as [Hx Hm].
  apply andb_true_iff in Hm as [Hm Hax].
  unfold Spec.stored in Hs. apply List.find_some in Hs as [Hd Hmd].
  apply list_elem_of_In in Hx, Hd. apply matches_key in Hm, Hmd.
  assert (x = d) as -> by (eapply same_key_same_doc; [done..|congruence]).
  congruence.
Qed.

(** The copy of a role record is the spread of its entries. *)
Lemma copyRole_fmap (m : gmap string Caps.t) :
  User.copyRole m = Entry.spread <$> m.
Proof.
  apply map_eq. intros k. by rewrite lookup_copyRole, lookup_fmap.
Qed.

(** An account without overrides resolves to the record the resolver
    reads. *)
Lemma resolve_without_overrides (account : User.doc)
    (coll : list Permission.doc) :
  User.role account <> "admin" ->
  User.permissions account = None ->
  User.accessiblePages account = None ->
  Spec.resolve account coll
  = User.mkResolved (Entry.spread <$> Spec.roleDefaults account coll)
      (Spec.rolePages account coll) (User.role account).
Proof.
  intros Hr Hp Ha.
  unfold Spec.resolve, User.getPermissions, Spec.roleDefaults, Spec.rolePages.
  rewrite (role_admin _ Hr), Hp, Ha. simpl.
  destruct (Permission.findOne _ _ _); [by rewrite copyRole_fmap|].
  by rewrite fmap_empty.
Qed.

(** The accounts of the key come out of [updateMany] without overrides. *)
Lemma updateMany_unset (shopId : ObjectId) (r : string)
    (coll : list User.doc) (u : User.doc) :
  u ∈ User.updateMany shopId r coll ->
  User.shop u = Some shopId ->
  User.role u = r ->
  User.permissions u = None /\ User.accessiblePages u = None.
Proof.
  unfold User.updateMany. intros (u0 & -> & _)%list_elem_of_fmap Hs Hr.
  destruct (User.matches shopId r u0) eqn:Hm; [done|].
  assert (User.matches shopId r u0 = true); [|congruence].
  by apply matches_user.
Qed.

(** The body of an update, as the handler writes it. *)
Lemma bodyMap_default (permissions : option (gmap string Caps.t)) :
  Controller.bodyMap permissions = default ∅ permissions.
Proof. destruct permissions; [apply bodyMap_id|done]. Qed.

(** What the accounts of a key meet after the shared write, when the stored
    document was active or absent: the record that was written, and no
    override. *)
Lemma write_then_findOne (req : Controller.request)
    (m : gmap string Caps.t) (pages : list string) (s : Controller.db)
    (u : User.doc) :
  (forall d,
      Spec.stored (Controller.shopId req) (Controller.role req)
        (Controller.Permissions s) = Some d ->
      Permission.isActive d = true) ->
  u ∈ Controller.Users (Controller.write req m pages s) ->
  User.shop u = Some (Controller.shopId req) ->
  User.role u = Controller.role req ->
  User.permissions u = None
  /\ User.accessiblePages u = None
  /\ Spec.roleDefaults u (Controller.Permissions (Controller.write req m pages s))
     = Permission.cast <$> m
  /\ Spec.rolePages u (Controller.Permissions (Controller.write req m pages s))
     = pages.
Proof.
  intros Hact Hu Hs Hr.
  cbn [Controller.write Controller.Permissions Controller.Users] in *.
  destruct (updateMany_unset _ _ _ _ Hu Hs Hr) as [Hp Ha].
  set (coll' := Permission.findOneAndUpdate _ _ _ _ _).
  assert (exists d,
             Permission.findOne (User.shop u) (User.role u) coll' = Some d
             /\ Permission.permissions d = Permission.cast <$> m
             /\ Permission.pageAccess d = pages) as (d & Hd & Hdp & Hda).
  { rewrite Hs, Hr. eexists. split.
    - apply findOne_stored_active.
      + subst coll'. apply stored_upsert; [by intros x Hx|by apply matches_key].
      + destruct (Spec.stored _ _ _) as [x|] eqn:Hx; [|done].
        simpl. by apply Hact.
    - by destruct (Spec.stored _ _ _). }
  unfold Spec.roleDefaults, Spec.rolePages. by rewrite Hd.
Qed.

(** After the shared write, the gate follows the map that was written, one
    capability at a time. *)
Lemma write_then_gate (req : Controller.request)
    (m : gmap string Caps.t) (pages : list string) (s : Controller.db)
    (u : User.doc) :
  (forall d,
      Spec.stored (Controller.shopId req) (Controller.role req)
        (Controller.Permissions s) = Some d ->
      Permission.isActive d = true) ->
  u ∈ Controller.Users (Controller.write req m pages s) ->
  User.shop u = Some (Controller.shopId req) ->
  User.role u = Controller.role req ->
  User.role u <> "admin" ->
  let coll' := Controller.Permissions (Controller.write req m pages s) in
  User.r_accessiblePages (Spec.resolve u coll') = pages
  /\ User.r_role (Spec.resolve u coll') = Controller.role req
  /\ (forall module action,
        action ∈ Caps.paths ->
        User.hasPermission u coll' module action
        = match m !! module with
          | Some c => Js.is_true (Caps.get c action)
          | None => false
          end)
  /\ (forall page, User.canAccessPage u coll' page = User.includes pages page).
Proof.
  intros Hact Hu Hs Hr Hna coll'.
  destruct (write_then_findOne req m pages s u Hact Hu Hs Hr)
    as (Hp & Ha & Hrd & Hrp).
  fold coll' in Hrd, Hrp.
  split_and!.
  - rewrite resolve_without_overrides by done. done.
  - rewrite resolve_without_overrides by done. done.
  - intros module action Hin. rewrite hasPermission_entry by done.
    unfold Spec.overrides. rewrite Hp, Hrd. cbn [default].
    rewrite lookup_empty, lookup_fmap.
    destruct (m !! module) as [c|]; [|done]. cbn.
    by rewrite read_paths, get_cast, is_true_default_false.
  - intros page. rewrite canAccessPage_list by done.
    by rewrite Ha, Hrp.
Qed.

End RegistryFacts.

(** X9.  Who writes a role record.  [updateRolePermissions] and
    [resetRolePermissions] answer 200 only to an administrator or to a shop
    owner whose shop is the shop of the route, and a reset by such a caller
    on a shop id of the store is answered with 200.  An update whose map
    has a key that contains a dot is never answered with 200.  Whenever the
    answer is not 200, both collections are as they were. *)
Theorem role_record_write_authorization (req : Controller.request)
    (s : Controller.db) :
  let update := Controller.updateRolePermissions req s in
  let reset := Controller.resetRolePermissions req s in
  (fst update = Controller.status200 -> Spec.mayWrite req)
  /\ (fst reset = Controller.status200 -> Spec.mayWrite req)
  /\ (Spec.mayWrite req ->
      isObjectId (Controller.shopId req) = true ->
      fst reset = Controller.status200)
  /\ (forall page,
        is_Some (default ∅ (Controller.permissions req) !! page) ->
        is_Some (String.index 0 "." page) ->
        fst update <> Controller.status200)
  /\ (fst update <> Controller.status200 -> snd update = s)
  /\ (fst reset <> Controller.status200 -> snd reset = s).
Proof.
  cbv zeta. split_and!.
  - intros H. by apply update_200 in H as [H%denied_None _].
  - intros H. by apply reset_200, denied_None in H.
  - intros Hw _. by apply reset_200, denied_None.
  - intros page [c Hc] Hdot H200.
    apply update_200 in H200 as [_ Hk].
    rewrite bodyMap_default in Hk. rewrite forallb_forall in Hk.
    assert (Permission.validKey page = true) as Hv.
    { apply Hk. apply list_elem_of_In.
      apply list_elem_of_fmap. exists (page, c). split; [done|].
      by apply elem_of_map_to_list. }
    unfold Permission.validKey in Hv.
    rewrite (bool_decide_true (is_Some (String.index 0 "." page))) in Hv by done.
    by rewrite andb_false_r in Hv.
  - apply not_200_unchanged.
  - apply not_200_unchanged.
Qed.

(** Four instances on the sample store: the owner's reset and the owner's
    update of the assistant record, an update by the owner that names a
    module with a dot, and an update by Ann. *)
Lemma role_record_write_authorization_witness :
  let dotted :=
    Controller.mkRequest Sample.owner Sample.shopA "assistant"
      (Some {[ "customers.view" := Caps.obj [("view", true)] ]}) None in
  let byAnn :=
    Controller.mkRequest Sample.ann Sample.shopA "assistant"
      (Some {[ "customers" := Caps.obj [("delete", true)] ]}) None in
  Spec.mayWrite Sample.resetAssistant
  /\ isObjectId (Controller.shopId Sample.resetAssistant) = true
  /\ fst (Controller.resetRolePermissions Sample.resetAssistant Sample.store)
     = Controller.status200
  /\ fst (Controller.updateRolePermissions Sample.updateAssistant Sample.store)
     = Controller.status200
  /\ Spec.mayWrite Sample.updateAssistant
  /\ Controller.updateRolePermissions dotted Sample.store
     = (Controller.status500, Sample.store)
  /\ Controller.updateRolePermissions byAnn Sample.store
     = (Controller.status403, Sample.store)
  /\ snd (Controller.updateRolePermissions dotted Sample.store) = Sample.store
  /\ snd (Controller.updateRolePermissions byAnn Sample.store) = Sample.store.
Proof.
  cbv zeta.
  assert (Spec.mayWrite Sample.resetAssistant) as Hw
    by (right; split; reflexivity).
  assert (isObjectId (Controller.shopId Sample.resetAssistant) = true) as Hid
    by reflexivity.
  assert (fst (Controller.updateRolePermissions Sample.updateAssistant
                 Sample.store) = Controller.status200) as Hu by reflexivity.
  pose proof (role_record_write_authorization Sample.resetAssistant
                Sample.store) as (_ & _ & H200 & _).
  pose proof (role_record_write_authorization Sample.updateAssistant
                Sample.store) as (Hmay & _).
  split_and!; [exact Hw|exact Hid|exact (H200 Hw Hid)|exact Hu|exact (Hmay Hu)
              |reflexivity|reflexivity| |].
  - apply (role_record_write_authorization
             (Controller.mkRequest Sample.owner Sample.shopA "assistant"
                (Some {[ "customers.view" := Caps.obj [("view", true)] ]})
                None) Sample.store).
    vm_compute. discriminate.
  - apply (role_record_write_authorization
             (Controller.mkRequest Sample.ann Sample.shopA "assistant"
                (Some {[ "customers" := Caps.obj [("delete", true)] ]})
                None) Sample.store).
    vm_compute. discriminate.
Defined.



(** X11.  After an [updateRolePermissions] that is answered with 200, on a
    key whose stored document was active or absent, every stored account
    of that shop and role that is not admin follows the body: the
    resolver answers the page list of the body (empty when omitted), the
    gate allows one of the seven capabilities on a module exactly when the
    map of the body sets it to [true], and a page exactly when it is in the
    list of the body. *)
Theorem update_then_resolve (req : Controller.request) (s : Controller.db)
    (u : User.doc) :
  fst (Controller.updateRolePermissions req s) = Controller.status200 ->
  (forall d,
      Spec.stored (Controller.shopId req) (Controller.role req)
        (Controller.Permissions s) = Some d ->
      Permission.isActive d = true) ->
  u ∈ Controller.Users (snd (Controller.updateRolePermissions req s)) ->
  User.shop u = Some (Controller.shopId req) ->
  User.role u = Controller.role req ->
  User.role u <> "admin" ->
  let coll' :=
    Controller.Permissions (snd (Controller.updateRolePermissions req s)) in
  User.r_accessiblePages (Spec.resolve u coll')
  = default [] (Controller.pageAccess req)
  /\ User.r_role (Spec.resolve u coll') = Controller.role req
  /\ (forall module action,
        action ∈ Caps.paths ->
        Spec.authorize u coll' module action
        = match default ∅ (Controller.permissions req) !! module with
          | Some c => Js.is_true (Caps.get c action)
          | None => false
          end)
  /\ (forall page,
        Spec.authorizePage u coll' page
        = User.includes (default [] (Controller.pageAccess req)) page).
Proof.
  intros H200 Hact Hu Hs Hr Hna coll'. subst coll'.
  apply update_200 in H200 as [Hd Hk].
  unfold Controller.updateRolePermissions in *. rewrite Hd in *.
  cbv zeta in *. rewrite Hk in *. cbn [snd] in *.
  rewrite bodyMap_default in *.
  destruct (write_then_gate req _ _ s u Hact Hu Hs Hr Hna)
    as (Hpages & Hrole & Hgate & Hpage).
  split_and!; [done|done| |].
  - intros module action Ha. rewrite authorize_hasPermission. by apply Hgate.
  - intros page. rewrite authorizePage_canAccessPage. apply Hpage.
Qed.

(** An instance: Bob after the owner's update of the assistant record with
    [{customers: {delete: true}}] and the page [customers]. *)
Lemma update_then_resolve_witness :
  let coll' :=
    Controller.Permissions
      (snd (Controller.updateRolePermissions Sample.updateAssistant
              Sample.store)) in
  fst (Controller.updateRolePermissions Sample.updateAssistant Sample.store)
  = Controller.status200
  /\ User.unset Sample.bob
       ∈ Controller.Users
           (snd (Controller.updateRolePermissions Sample.updateAssistant
                   Sample.store))
  /\ User.r_accessiblePages (Spec.resolve (User.unset Sample.bob) coll')
     = ["customers"]
  /\ Spec.authorize (User.unset Sample.bob) coll' "customers" "delete" = true
  /\ Spec.authorize (User.unset Sample.bob) coll' "customers" "view" = false.
Proof.
  cbv zeta.
  assert (fst (Controller.updateRolePermissions Sample.updateAssistant
                 Sample.store) = Controller.status200) as H1 by reflexivity.
  assert (forall d,
             Spec.stored (Controller.shopId Sample.updateAssistant)
               (Controller.role Sample.updateAssistant)
               (Controller.Permissions Sample.store) = Some d ->
             Permission.isActive d = true) as H2
    by (intros d [= <-]; reflexivity).
  assert (User.unset Sample.bob
            ∈ Controller.Users
                (snd (Controller.updateRolePermissions Sample.updateAssistant
                        Sample.store))) as H3
    by (apply (list_elem_of_lookup_2 _ 1); reflexivity).
  assert (User.role (User.unset Sample.bob) <> "admin") as H4
    by (simpl; discriminate).
  pose proof (update_then_resolve Sample.updateAssistant Sample.store
                (User.unset Sample.bob) H1 H2 H3 eq_refl eq_refl H4)
    as (Hpages & _ & Hgate & _).
  split_and!; [exact H1|exact H3|exact Hpages| |].
  - rewrite Hgate; [reflexivity|].
    apply (bool_decide_unpack _); vm_compute; exact I.
  - rewrite Hgate; [reflexivity|].
    apply (bool_decide_unpack _); vm_compute; exact I.
Defined.

(** X12.  Neither handler reactivates a record.  On a collection that
    respects the unique index, if the document stored under (shop, role)
    is deactivated, then after a successful [updateRolePermissions] or
    [resetRolePermissions] the resolver still finds no role defaults for
    that key: every stored account of that shop and role that is not admin
    resolves to the empty map and the empty page list, and is refused
    every action and every page. *)
Theorem inactive_record_stays_hidden
    (handler : Controller.request -> Controller.db
               -> Controller.response * Controller.db)
    (req : Controller.request) (s : Controller.db) (d : Permission.doc)
    (u : User.doc) :
  handler = Controller.updateRolePermissions
  \/ handler = Controller.resetRolePermissions ->
  fst (handler req s) = Controller.status200 ->
  Permission.unique_index (Controller.Permissions s) ->
  Spec.stored (Controller.shopId req) (Controller.role req)
    (Controller.Permissions s) = Some d ->
  Permission.isActive d = false ->
  u ∈ Controller.Users (snd (handler req s)) ->
  User.shop u = Some (Controller.shopId req) ->
  User.role u = Controller.role req ->
  User.role u <> "admin" ->
  let coll' := Controller.Permissions (snd (handler req s)) in
  Spec.resolve u coll' = User.mkResolved ∅ [] (Controller.role req)
  /\ (forall module action, User.hasPermission u coll' module action = false)
  /\ (forall page, User.canAccessPage u coll' page = false).
Proof.
  intros Hh H200 Hn Hst Hact Hu Hs Hr Hna coll'. subst coll'.
  destruct (written_200 handler req s Hh H200) as (m & pages & Hw).
  rewrite Hw in *.
  cbn [Controller.write Controller.Permissions Controller.Users] in *.
  destruct (updateMany_unset _ _ _ _ Hu Hs Hr) as [Hp Ha].
  set (coll' := Permission.findOneAndUpdate _ _ _ _ _).
  assert (Permission.findOne (User.shop u) (User.role u) coll' = None) as Hf.
  { rewrite Hs, Hr. subst coll'. eapply findOne_stored_inactive.
    - apply unique_index_upsert; [by intros x Hx|by apply matches_key|done].
    - apply stored_upsert; [by intros x Hx|by apply matches_key].
    - by rewrite Hst. }
  split_and!.
  - rewrite resolve_without_overrides by done.
    unfold Spec.roleDefaults, Spec.rolePages. by rewrite Hf, Hr, fmap_empty.
  - intros module action. rewrite hasPermission_entry by done.
    unfold Spec.overrides, Spec.roleDefaults.
    by rewrite Hp, Hf, !lookup_empty.
  - intros page. rewrite canAccessPage_list by done.
    unfold Spec.rolePages. by rewrite Ha, Hf.
Qed.

(** An instance: a reset of the deactivated assistant record leaves Bob
    without role defaults. *)
Lemma inactive_record_stays_hidden_witness :
  fst (Controller.resetRolePermissions Sample.resetAssistant
         Cases.inactiveStore) = Controller.status200
  /\ Permission.unique_index (Controller.Permissions Cases.inactiveStore)
  /\ Permission.isActive Cases.inactiveRecord = false
  /\ Spec.resolve (User.unset Sample.bob)
       (Controller.Permissions
          (snd (Controller.resetRolePermissions Sample.resetAssistant
                  Cases.inactiveStore)))
     = User.mkResolved ∅ [] "assistant".
Proof.
  assert (fst (Controller.resetRolePermissions Sample.resetAssistant
                 Cases.inactiveStore) = Controller.status200) as H1
    by reflexivity.
  assert (Permission.unique_index (Controller.Permissions Cases.inactiveStore))
    as H2 by (apply (bool_decide_unpack _); vm_compute; exact I).
  assert (Permission.isActive Cases.inactiveRecord = false) as H3
    by reflexivity.
  assert (User.unset Sample.bob
            ∈ Controller.Users
                (snd (Controller.resetRolePermissions Sample.resetAssistant
                        Cases.inactiveStore))) as H4
    by (apply (list_elem_of_lookup_2 _ 1); reflexivity).
  split_and!; [exact H1|exact H2|exact H3|].
  refine (proj1 (inactive_record_stays_hidden
                   Controller.resetRolePermissions Sample.resetAssistant
                   Cases.inactiveStore Cases.inactiveRecord
                   (User.unset Sample.bob) (or_intror eq_refl) H1 H2 _ H3 H4
                   _ _ _)); [reflexivity..|].
  simpl. discriminate.
Defined.

(** ** [initializePermissions] again *)
Section InitializeAgain.

Variable this : Shop.doc.










End InitializeAgain.




(** ** The listing, the ownership check and the check endpoints *)
Section ReadFacts.



End ReadFacts.



(** X16.  For a caller who is not admin, [validateShopOwnership] calls
    [next] exactly when the first non-empty value among the route
    parameter, the body and the query is the caller's own shop; a caller
    without a shop never passes, and once the route parameter is given the
    body and the query are not looked at. *)
Theorem ownership_check_first_value (user : User.doc)
    (params_shopId body_shop query_shop : option string) :
  User.role user <> "admin" ->
  (Validation.validateShopOwnership user params_shopId body_shop query_shop
   = Validation.next
   <-> exists shopId,
         User.shop user = Some shopId
         /\ shopId <> ""
         /\ (params_shopId = Some shopId
             \/ Validation.falsy params_shopId = true
                /\ (body_shop = Some shopId
                    \/ Validation.falsy body_shop = true
                       /\ query_shop = Some shopId)))
  /\ (Validation.falsy params_shopId = false ->
      Validation.validateShopOwnership user params_shopId body_shop query_shop
      = Validation.validateShopOwnership user params_shopId None None).
Proof.
  intros Hr. unfold Validation.validateShopOwnership, Validation.or_else.
  rewrite (role_admin _ Hr).
  split; [|intros Hp; by rewrite !Hp].
  destruct params_shopId as [[|c1 p]|], body_shop as [[|c2 b]|],
    query_shop as [[|c3 q]|]; simpl;
    (destruct (User.shop user) as [us|];
     [try match goal with
          | |- context [String.eqb us ?x] => destruct (String.eqb_spec us x)
          end|]);
    (split;
     [first [discriminate
            |intros _; subst; eexists; split_and!;
             [reflexivity|discriminate|tauto]]
     |intros (sid & Hs & Hne & Hor); simplify_eq; intuition congruence]).
Qed.

(** An instance: Ann asks for her own shop in the route and for another
    one in the body. *)
Lemma ownership_check_first_value_witness :
  User.role Sample.ann <> "admin"
  /\ Validation.validateShopOwnership Sample.ann (Some Sample.shopA)
       (Some Sample.shopB) None
     = Validation.validateShopOwnership Sample.ann (Some Sample.shopA)
         None None.
Proof.
  assert (User.role Sample.ann <> "admin") as H by done.
  split; [exact H|].
  exact (proj2 (ownership_check_first_value Sample.ann (Some Sample.shopA)
                  (Some Sample.shopB) None H) eq_refl).
Defined.

(** X17.  The endpoints [check-permission] and [check-page-access] answer
    400 exactly when a query value is missing or empty, and otherwise
    report true exactly when the [checkPermission], respectively
    [checkPageAccess], middleware would let the same caller through. *)
Theorem check_endpoints_agree_with_gate (caller : User.doc)
    (coll : list Permission.doc) :
  (forall module action,
      Handlers.checkUserPermission caller module action coll
      = Handlers.badRequest
      <-> Validation.falsy module = true \/ Validation.falsy action = true)
  /\ (forall page,
        Handlers.checkPageAccess caller page coll = Handlers.badRequest
        <-> Validation.falsy page = true)
  /\ (forall module action,
        Validation.falsy (Some module) = false ->
        Validation.falsy (Some action) = false ->
        exists b,
          Handlers.checkUserPermission caller (Some module) (Some action) coll
          = Handlers.ok (b, module, action)
          /\ (b = true
              <-> Middleware.checkPermission module action (Some caller) coll
                  = Middleware.next))
  /\ (forall page,
        Validation.falsy (Some page) = false ->
        exists b,
          Handlers.checkPageAccess caller (Some page) coll
          = Handlers.ok (b, page)
          /\ (b = true
              <-> Middleware.checkPageAccess page (Some caller) coll
                  = Middleware.next)).
Proof.
  split_and!.
  - intros [module|] [action|]; unfold Handlers.checkUserPermission; simpl.
    + destruct (String.eqb module ""), (String.eqb action ""); simpl;
        split; try done; try (intros _; by left); try (intros _; by right).
      by intros [?|?].
    + split; [by right|done].
    + split; [by left|done].
    + split; [by left|done].
  - intros [page|]; unfold Handlers.checkPageAccess; [|done].
    by destruct (Validation.falsy (Some page)).
  - intros module action Hm Ha. unfold Handlers.checkUserPermission.
    rewrite Hm, Ha. cbn [orb]. eexists. split; [reflexivity|].
    rewrite <- authorize_hasPermission. unfold Spec.authorize.
    destruct (Middleware.checkPermission _ _ _ _); by split.
  - intros page Hp. unfold Handlers.checkPageAccess. rewrite Hp.
    eexists. split; [reflexivity|].
    rewrite <- authorizePage_canAccessPage. unfold Spec.authorizePage.
    destruct (Middleware.checkPageAccess _ _ _); by split.
Qed.

(** Instances: Ann asks about [customers.create] and about the page
    [dashboard]; a page query that is empty or missing is answered 400. *)
Lemma check_endpoints_agree_with_gate_witness :
  Validation.falsy (Some "customers") = false
  /\ Validation.falsy (Some "create") = false
  /\ Validation.falsy (Some "dashboard") = false
  /\ (exists b,
        Handlers.checkUserPermission Sample.ann (Some "customers")
          (Some "create") [Sample.assistantRecord]
        = Handlers.ok (b, "customers", "create")
        /\ (b = true
            <-> Middleware.checkPermission "customers" "create"
                  (Some Sample.ann) [Sample.assistantRecord]
                = Middleware.next))
  /\ (exists b,
        Handlers.checkPageAccess Sample.ann (Some "dashboard")
          [Sample.assistantRecord]
        = Handlers.ok (b, "dashboard")
        /\ (b = true
            <-> Middleware.checkPageAccess "dashboard" (Some Sample.ann)
                  [Sample.assistantRecord]
                = Middleware.next))
  /\ Handlers.checkPageAccess Sample.ann (Some "") [Sample.assistantRecord]
     = Handlers.badRequest
  /\ Handlers.checkPageAccess Sample.ann None [Sample.assistantRecord]
     = Handlers.badRequest.
Proof.
  assert (Validation.falsy (Some "customers") = false) as H1 by reflexivity.
  assert (Validation.falsy (Some "create") = false) as H2 by reflexivity.
  assert (Validation.falsy (Some "dashboard") = false) as H3 by reflexivity.
  pose proof (check_endpoints_agree_with_gate Sample.ann
                [Sample.assistantRecord]) as (_ & H400 & Hperm & Hpage).
  split_and!; [exact H1|exact H2|exact H3| | | |].
  - exact (Hperm "customers" "create" H1 H2).
  - exact (Hpage "dashboard" H3).
  - apply H400. reflexivity.
  - apply H400. reflexivity.
Defined.


